(** * SpotifyInfoBot: a shallow embedding of [main.py]

    The bot polls a subreddit, recognises links to Spotify playlists, fetches
    the playlist (page by page), and replies with a summary.  Everything lives
    in the single Python function [main]; the embedding below follows it line
    by line.  The forum client, the playlist client, the clock and the SQLite
    connection are the environment: their answers are read from a [World] of
    scripted outcomes and every interaction is recorded in a trace, so that
    statements such as "the fetch was invoked once" or "the sleeps were
    2, 4, 8, ..." are statements about values. *)

From Stdlib Require Import ZArith String Ascii List Bool Arith DecimalString Lia.
From Stdlib Require Import Permutation Sorted.
Import ListNotations.

Local Open Scope string_scope.
Local Open Scope Z_scope.

(** ** Strings as Python formats them *)

(** [str.lower], on the ASCII letters (other code points are left alone). *)
Definition lower_ascii (c : ascii) : ascii :=
  let n := nat_of_ascii c in
  if (65 <=? n)%nat && (n <=? 90)%nat then ascii_of_nat (n + 32) else c.

Fixpoint lower (s : string) : string :=
  match s with
  | EmptyString => EmptyString
  | String c t => String (lower_ascii c) (lower t)
  end.

(** [sep.join(l)] *)
Fixpoint join (sep : string) (l : list string) : string :=
  match l with
  | [] => ""
  | [x] => x
  | x :: t => x ++ sep ++ join sep t
  end.

(** ["%d"] and ["{}"] applied to an integer. *)
Definition str_of_Z (z : Z) : string := NilZero.string_of_int (Z.to_int z).

(** ["{:,}"]: a comma before every group of three digits, counted from the
    right. *)
Fixpoint commas (digits : string) : string :=
  match digits with
  | EmptyString => EmptyString
  | String c t =>
      String c (if (0 <? String.length t)%nat && (String.length t mod 3 =? 0)%nat
                then "," ++ commas t else commas t)
  end.

Definition str_of_Z_grouped (z : Z) : string :=
  if z <? 0 then "-" ++ commas (str_of_Z (- z)) else commas (str_of_Z z).

Definition nl : string := String "010"%char EmptyString.

(** ** Data model *)

(** A forum submission.  [sub_created_utc] is [int(submission.created_utc)];
    [sub_host] and [sub_segments] are [furl(submission.url).host] and
    [furl(submission.url).path.segments] (the URL parser is a library and its
    result is taken as given; a URL without a host has [None]). *)
Record Submission := {
  sub_id : string;
  sub_created_utc : Z;
  sub_url : string;
  sub_host : option string;
  sub_segments : list string;
  sub_permalink : string
}.

(** [item["track"]]: [None] stands for a removed or unavailable track. *)
Record Track := {
  duration_ms : Z;
  popularity : Z;
  artists : list string;          (* [artist["name"]] of each artist *)
  track_name : string;
  track_url : string              (* [external_urls.spotify] *)
}.

Record Item := { track : option Track }.

Record Playlist := {
  pl_name : string;
  owner_display_name : string;
  owner_url : string;
  followers_total : Z;
  tracks_items : list Item;
  tracks_total : Z
}.

(** ** Exceptions and outcomes *)

Inductive exn :=
| SpotifyException        (* [spotipy.exceptions.SpotifyException] *)
| NetworkError            (* any other [Exception] raised by a client call *)
| IndexError              (* list index out of range *)
| TypeError               (* subscripting [None] *)
| OperationalError.       (* [sqlite3.OperationalError]: no such table *)

Inductive outcome (A : Type) :=
| Returned (v : A)
| Raised (e : exn).
Arguments Returned {A} v.
Arguments Raised {A} e.

(** ** The environment *)

Inductive request :=
| ReqNew                                         (* [subreddit.new(limit=100)] *)
| ReqPlaylist (playlist_id : string)             (* [spotify.playlist(id)] *)
| ReqTracks (playlist_id : string) (offset : Z)  (* [spotify.playlist_tracks] *)
| ReqReply (submission_id text : string).        (* [submission.reply(text)] *)

Inductive event :=
| EvCall (r : request)
| EvSleep (seconds : Z)
| EvLog (msg : string).

(** What the remote services answer.  The [nat] is the number of client calls
    the program has issued before this one, so the same request can fail now
    and succeed later. *)
Record World := {
  subreddit_new : nat -> outcome (list Submission);
  spotify_playlist : string -> nat -> outcome Playlist;
  spotify_playlist_tracks : string -> Z -> nat -> outcome (list Item);
  submission_reply : string -> string -> nat -> outcome unit
}.

(** The durable store: an SQLite database is a set of named tables; the only
    table the program touches has rows [(id, timestamp)]. *)
Definition Row := (string * Z)%type.
Definition Table := list Row.
Definition Database := list (string * Table).

Fixpoint table_of (name : string) (d : Database) : option Table :=
  match d with
  | [] => None
  | (n, t) :: rest => if String.eqb n name then Some t else table_of name rest
  end.

Fixpoint set_table (name : string) (t : Table) (d : Database) : Database :=
  match d with
  | [] => []
  | (n, t0) :: rest =>
      if String.eqb n name then (n, t) :: rest else (n, t0) :: set_table name t rest
  end.

(** [sqlite3.connect(path)] opens the file and creates an empty database when
    there is none; it creates no table. *)
Definition sqlite3_connect (file : option Database) : Database :=
  match file with
  | Some d => d
  | None => []
  end.

(** The program state: the local [submission_ids], the connection [db] with
    its uncommitted writes, what is committed on [disk], the wall clock, the
    number of client calls made so far and the trace of interactions. *)
Record State := {
  submission_ids : list string;
  db : Database;
  disk : Database;
  clock : Z;
  calls : nat;
  trace : list event
}.

Definition set_submission_ids (l : list string) (s : State) : State :=
  {| submission_ids := l; db := db s; disk := disk s; clock := clock s;
     calls := calls s; trace := trace s |}.

Definition set_db (d : Database) (s : State) : State :=
  {| submission_ids := submission_ids s; db := d; disk := disk s;
     clock := clock s; calls := calls s; trace := trace s |}.

Definition emit (e : event) (s : State) : State :=
  {| submission_ids := submission_ids s; db := db s; disk := disk s;
     clock := clock s; calls := calls s; trace := trace s ++ [e] |}.

(** ** A monad for [main]: state, exceptions and fuel *)

Inductive Res (A : Type) :=
| Done (a : A) (s : State)      (* ran to the end *)
| Raise (e : exn) (s : State)   (* an exception escaped *)
| OutOfFuel.                    (* a loop was still running when fuel ran out *)
Arguments Done {A} a s.
Arguments Raise {A} e s.
Arguments OutOfFuel {A}.

Definition M (A : Type) := State -> Res A.

Definition ret {A} (a : A) : M A := fun s => Done a s.

Definition bind {A B} (c : M A) (k : A -> M B) : M B :=
  fun s => match c s with
           | Done a s' => k a s'
           | Raise e s' => Raise e s'
           | OutOfFuel => OutOfFuel
           end.

Definition raise {A} (e : exn) : M A := fun s => Raise e s.

Notation "x <- c ;; k" := (bind c (fun x => k))
  (at level 61, c at next level, right associativity).
Notation "c ;; k" := (bind c (fun _ => k))
  (at level 61, right associativity).

(** [try: c  except Exception as err: ...] hands the exception to the
    handler as a value. *)
Definition try_ {A} (c : M A) : M (outcome A) :=
  fun s => match c s with
           | Done a s' => Done (Returned a) s'
           | Raise e s' => Done (Raised e) s'
           | OutOfFuel => OutOfFuel
           end.

(** *** Primitive effects *)

Definition log_info (msg : string) : M unit :=
  fun s => Done tt (emit (EvLog msg) s).

(** [time.sleep(n)] *)
Definition sleep (n : Z) : M unit :=
  fun s =>
    Done tt {| submission_ids := submission_ids s; db := db s; disk := disk s;
               clock := clock s + n; calls := calls s;
               trace := trace s ++ [EvSleep n] |}.

(** [int(datetime.utcnow().timestamp())] *)
Definition utcnow_timestamp : M Z := fun s => Done (clock s) s.

(** One call to a client: the world decides whether it returns or raises. *)
Definition net_call {A} (r : request) (answer : nat -> outcome A) : M A :=
  fun s =>
    let s' := {| submission_ids := submission_ids s; db := db s; disk := disk s;
                 clock := clock s; calls := S (calls s);
                 trace := trace s ++ [EvCall r] |} in
    match answer (calls s) with
    | Returned v => Done v s'
    | Raised e => Raise e s'
    end.

(** [submission_ids.append(id)] *)
Definition append_id (id : string) : M unit :=
  fun s => Done tt (set_submission_ids (submission_ids s ++ [id]) s).

(** [cur.execute("select * from submissions where id=?", [id]); cur.fetchone()]:
    whether a row with this id exists. *)
Definition db_select (id : string) : M bool :=
  fun s => match table_of "submissions" (db s) with
           | None => Raise OperationalError s
           | Some rows => Done (existsb (fun r => String.eqb (fst r) id) rows) s
           end.

(** [cur.execute("insert into submissions values(?,?)", [id, ts])] *)
Definition db_insert (id : string) (ts : Z) : M unit :=
  fun s => match table_of "submissions" (db s) with
           | None => Raise OperationalError s
           | Some rows =>
               Done tt (set_db (set_table "submissions" (rows ++ [(id, ts)])%list (db s)) s)
           end.

(** [sql.commit()] *)
Definition db_commit : M unit :=
  fun s => Done tt {| submission_ids := submission_ids s; db := db s;
                      disk := db s; clock := clock s; calls := calls s;
                      trace := trace s |}.

(** ** The retry loop

    The same loop is written out four times in [main] (lines 70-88, 136-154,
    164-182, 234-252); the copies differ only in the call and in one word of
    the log message. *)
Fixpoint retry_loop {A} (fuel : nat) (call : M A) (what : string)
    (sleep_time attempt_count : Z) : M A :=
  match fuel with
  | O => fun _ => OutOfFuel
  | S fuel' =>
      log_info ("Reattempting " ++ what ++ " in " ++ str_of_Z sleep_time ++ " seconds") ;;
      sleep sleep_time ;;
      let sleep_time' := if sleep_time <? 32 then sleep_time * 2 else sleep_time in
      r <- try_ call ;;
      match r with
      | Returned v => ret v
      | Raised _ =>
          log_info ("Reattempt #" ++ str_of_Z attempt_count ++ " failed") ;;
          retry_loop fuel' call what sleep_time' (attempt_count + 1)
      end
  end.

(** [try: x = call()  except Exception: <log>; <retry loop>] *)
Definition with_retry {A} (fuel : nat) (call : M A) (failed what : string) : M A :=
  r <- try_ call ;;
  match r with
  | Returned v => ret v
  | Raised _ => log_info failed ;; retry_loop fuel call what 2 1
  end.

(** ** The body of the work loop *)

(** How the loop body ended for one submission: which [continue] was taken,
    or the end of the body. *)
Inductive handled :=
| AlreadyCached       (* line 92 *)
| Stale               (* line 97 *)
| InStore             (* line 102 *)
| InvalidUrl          (* line 111 *)
| NoPlaylistId        (* line 122 *)
| PlaylistNotFound    (* line 132 *)
| Replied.            (* line 264 *)

(** *** Lines 104-122: from the URL to the playlist identifier *)

Inductive link :=
| NotSpotify
| NoIdentifier
| Identifier (playlist_id : string).

(** [l[i]] *)
Definition index {A} (l : list A) (i : nat) : outcome A :=
  match nth_error l i with
  | Some x => Returned x
  | None => Raised IndexError
  end.

Definition is_spotify_host (host : option string) : bool :=
  match host with
  | Some h => String.eqb h "open.spotify.com"
  | None => false
  end.

Definition extract_playlist_id (host : option string) (segments : list string)
  : outcome link :=
  if negb (is_spotify_host host) then Returned NotSpotify
  else
    match index segments 0 with
    | Raised e => Raised e
    | Returned seg0 =>
        if String.eqb (lower seg0) "playlist" then
          match index segments 1 with
          | Raised e => Raised e
          | Returned id => Returned (Identifier id)
          end
        else if String.eqb (lower seg0) "user" then
          match index segments 3 with
          | Raised e => Raised e
          | Returned id => Returned (Identifier id)
          end
        else Returned NoIdentifier
    end.

(** *** Lines 156-187: the remaining pages *)

Fixpoint fetch_all_tracks (fuel : nat) (w : World) (playlist_id : string)
    (items : list Item) (total offset : Z) : M (list Item) :=
  if Z.of_nat (length items) <? total then
    match fuel with
    | O => fun _ => OutOfFuel
    | S fuel' =>
        tracks <- with_retry fuel
                    (net_call (ReqTracks playlist_id offset)
                              (spotify_playlist_tracks w playlist_id offset))
                    "Failed to fetch playlist tracks" "fetch" ;;
        sleep 1 ;;
        fetch_all_tracks fuel' w playlist_id (items ++ tracks) total (offset + 100)
    end
  else ret items.

(** *** Lines 189-202: duration and ranking *)

(** The items whose track is not [None]. *)
Definition present (items : list Item) : list Track :=
  flat_map (fun it => match track it with Some t => [t] | None => [] end) items.

Definition sum_Z (l : list Z) : Z := fold_right Z.add 0 l.

Definition total_ms (items : list Item) : Z :=
  sum_Z (map duration_ms (present items)).

(** [int(total_ms / 3600000)] and [int((total_ms / 60000) % 60)]; the source
    takes the quotients in floating point and truncates. *)
Definition hours_of (ms : Z) : Z := Z.quot ms 3600000.
Definition minutes_of (ms : Z) : Z := Z.quot ms 60000 mod 60.

Definition popularity_key (it : Item) : Z :=
  match track it with
  | Some t => popularity t
  | None => 0
  end.

(** [sorted(items, key=popularity_key, reverse=True)]: descending, and items
    with equal keys keep their order. *)
Fixpoint insert_ranked (x : Item) (l : list Item) : list Item :=
  match l with
  | [] => [x]
  | y :: t =>
      if popularity_key y <=? popularity_key x then x :: l
      else y :: insert_ranked x t
  end.

Definition ranked_tracks (items : list Item) : list Item :=
  fold_right insert_ranked [] items.

(** *** Lines 204-226: the reply text *)

Definition artists_string (artists_raw : list string) : string :=
  match artists_raw with
  | [a] => a
  | [a; b] => a ++ " and " ++ b
  | _ =>
      let n := (length artists_raw - 2)%nat in
      join ", " (firstn n artists_raw ++ [join ", and " (skipn n artists_raw)])%list
  end.

(** The loop of lines 214-226 over [ranked_tracks[:5]]. *)
Fixpoint top_tracks (l : list Item) : outcome string :=
  match l with
  | [] => Returned ""
  | it :: rest =>
      match track it with
      | None => Raised TypeError
      | Some t =>
          match top_tracks rest with
          | Raised e => Raised e
          | Returned lines =>
              Returned ("* [" ++ artists_string (artists t) ++ " - " ++ track_name t
                        ++ "](" ++ track_url t ++ ")" ++ nl ++ lines)
          end
      end
  end.

Definition build_response (playlist : Playlist) (items : list Item) (url : string)
  : outcome string :=
  let total := total_ms items in
  let hours := hours_of total in
  let minutes := minutes_of total in
  let ranked := ranked_tracks items in
  let response :=
    "Playlist name: [" ++ pl_name playlist ++ "](" ++ url ++ ")" ++ nl ++ nl
    ++ "Playlist author: [" ++ owner_display_name playlist ++ "]("
    ++ owner_url playlist ++ ")" ++ nl ++ nl
    ++ "Number of tracks: " ++ str_of_Z (Z.of_nat (length items)) ++ nl ++ nl
    ++ "Length: " ++ str_of_Z hours ++ " hr " ++ str_of_Z minutes ++ " min" ++ nl ++ nl
    ++ "Followers: " ++ str_of_Z_grouped (followers_total playlist) ++ nl ++ nl
    ++ "Top tracks:" ++ nl ++ nl in
  match top_tracks (firstn 5 ranked) with
  | Raised e => Raised e
  | Returned lines => Returned (response ++ lines)
  end.

Definition lift {A} (o : outcome A) : M A :=
  match o with
  | Returned v => ret v
  | Raised e => raise e
  end.

(** *** Lines 254-264: bookkeeping after a reply *)

(** [while len(submission_ids) > 125: submission_ids.pop(0)] *)
Fixpoint evict (ids : list string) : list string :=
  match ids with
  | [] => []
  | _ :: rest => if (125 <? length ids)%nat then evict rest else ids
  end.

Definition evict_ids : M unit :=
  fun s => Done tt (set_submission_ids (evict (submission_ids s)) s).

Definition record_reply (sub : Submission) : M handled :=
  append_id (sub_id sub) ;;
  now <- utcnow_timestamp ;;
  db_insert (sub_id sub) now ;;
  db_commit ;;
  evict_ids ;;
  sleep 1 ;;
  ret Replied.

(** *** Lines 156-264, once the playlist is there *)

Definition summarise_and_reply (fuel : nat) (w : World) (sub : Submission)
    (playlist_id : string) (playlist : Playlist) : M handled :=
  items <- fetch_all_tracks fuel w playlist_id
             (tracks_items playlist) (tracks_total playlist) 100 ;;
  response <- lift (build_response playlist items (sub_url sub)) ;;
  with_retry fuel
    (net_call (ReqReply (sub_id sub) response)
              (submission_reply w (sub_id sub) response))
    "Failed to submit response" "submission" ;;
  record_reply sub.

(** *** Lines 124-154: the first page *)

(** [None] when the first attempt raises [SpotifyException] (line 129); any
    other exception of the first attempt starts the retry loop, whose own
    [except Exception] (line 152) makes no such distinction. *)
Definition fetch_playlist (fuel : nat) (w : World) (playlist_id : string)
  : M (option Playlist) :=
  let call := net_call (ReqPlaylist playlist_id) (spotify_playlist w playlist_id) in
  r <- try_ call ;;
  match r with
  | Returned playlist => ret (Some playlist)
  | Raised SpotifyException => ret None
  | Raised _ =>
      log_info "Failed to fetch playlist" ;;
      playlist <- retry_loop fuel call "fetch" 2 1 ;;
      ret (Some playlist)
  end.

Definition fetch_and_reply (fuel : nat) (w : World) (sub : Submission)
    (playlist_id : string) : M handled :=
  log_info ("New submission: https://www.reddit.com" ++ sub_permalink sub) ;;
  found <- fetch_playlist fuel w playlist_id ;;
  match found with
  | None =>
      append_id (sub_id sub) ;;
      ret PlaylistNotFound
  | Some playlist => summarise_and_reply fuel w sub playlist_id playlist
  end.

(** *** Lines 104-122 *)

Definition handle_link (fuel : nat) (w : World) (sub : Submission) : M handled :=
  l <- lift (extract_playlist_id (sub_host sub) (sub_segments sub)) ;;
  match l with
  | NotSpotify =>
      log_info ("Invalid Spotify URL: " ++ sub_url sub) ;;
      append_id (sub_id sub) ;;
      ret InvalidUrl
  | NoIdentifier =>
      log_info "Couldn't find a playlist ID, ignoring" ;;
      append_id (sub_id sub) ;;
      ret NoPlaylistId
  | Identifier playlist_id => fetch_and_reply fuel w sub playlist_id
  end.

(** *** Lines 91-102: has this submission been seen? *)

Definition process_submission (fuel : nat) (w : World) (sub : Submission)
  : M handled :=
  fun s =>
    if existsb (String.eqb (sub_id sub)) (submission_ids s) then Done AlreadyCached s
    else
      (now <- utcnow_timestamp ;;
       if sub_created_utc sub <? now - 900 then
         append_id (sub_id sub) ;;
         ret Stale
       else
         seen <- db_select (sub_id sub) ;;
         if seen then
           append_id (sub_id sub) ;;
           ret InStore
         else handle_link fuel w sub) s.

(** ** The work loop (lines 63-264) *)

Fixpoint for_each {A B} (l : list A) (body : A -> M B) : M (list B) :=
  match l with
  | [] => ret []
  | x :: rest =>
      b <- body x ;;
      bs <- for_each rest body ;;
      ret (b :: bs)
  end.

Definition poll (fuel : nat) (w : World) : M (list handled) :=
  new_submissions <- with_retry fuel (net_call ReqNew (subreddit_new w))
                       "Failed to fetch new submissions" "fetch" ;;
  for_each new_submissions (process_submission fuel w).

(** The first [rounds] iterations of [while True]. *)
Fixpoint work_loop (rounds fuel : nat) (w : World) : M (list handled) :=
  match rounds with
  | O => ret []
  | S rounds' =>
      hs <- poll fuel w ;;
      hs' <- work_loop rounds' fuel w ;;
      ret (hs ++ hs')%list
  end.

(** The state in which the work loop starts: [sqlite3.connect("data.db")]
    on whatever is (or is not) on disk, and an empty [submission_ids].
    Loading the configuration and logging in to the two services happen
    before and are not modelled. *)
Definition startup (file : option Database) (now : Z) : State :=
  {| submission_ids := [];
     db := sqlite3_connect file;
     disk := sqlite3_connect file;
     clock := now;
     calls := O;
     trace := [] |}.

Definition main (rounds fuel : nat) (w : World) (file : option Database) (now : Z)
  : Res (list handled) :=
  work_loop rounds fuel w (startup file now).

(** ** Reading a trace *)

Definition sleeps (evs : list event) : list Z :=
  flat_map (fun e => match e with EvSleep n => [n] | _ => [] end) evs.

Definition requests (evs : list event) : list request :=
  flat_map (fun e => match e with EvCall r => [r] | _ => [] end) evs.

Definition is_reply (r : request) : bool :=
  match r with
  | ReqReply _ _ => true
  | _ => false
  end.

(** What skipping a link means: the loop body ends with [h], the identifier
    is appended to the cache, one line is logged and nothing else happens. *)
Definition process_link_skips (fuel : nat) (w : World) (sub : Submission)
    (s : State) (h : handled) : Prop :=
  exists s',
    handle_link fuel w sub s = Done h s' /\
    submission_ids s' = (submission_ids s ++ [sub_id sub])%list /\
    requests (trace s') = requests (trace s) /\
    calls s' = calls s /\ db s' = db s /\ disk s' = disk s.

(** ** The tests of the gate, as propositions *)

Definition cached (id : string) (s : State) : Prop := In id (submission_ids s).

(** Older than 900 seconds. *)
Definition stale (sub : Submission) (s : State) : Prop :=
  sub_created_utc sub < clock s - 900.

Definition store_rows (d : Database) (rows : Table) : Prop :=
  table_of "submissions" d = Some rows.

Definition stored (id : string) (d : Database) : Prop :=
  exists rows, store_rows d rows /\ In id (map fst rows).

Definition not_stored (id : string) (d : Database) : Prop :=
  exists rows, store_rows d rows /\ ~ In id (map fst rows).

(** The state after [submission_ids.append(id)]. *)
Definition with_id (id : string) (s : State) : State :=
  set_submission_ids (submission_ids s ++ [id]) s.

(** The outcomes in which the submission was looked at and passed over. *)
Definition skip_tag (h : handled) : bool :=
  match h with
  | AlreadyCached | Replied => false
  | _ => true
  end.

(** ** What a run leaves behind *)

Definition no_reply (evs : list event) : Prop :=
  forallb (fun r => negb (is_reply r)) (requests evs) = true.

(** What a command leaves alone: the cache and both views of the store. *)
Definition same_books (s s' : State) : Prop :=
  submission_ids s' = submission_ids s /\ db s' = db s /\ disk s' = disk s.

(** From [s] to [s'] the books were not touched and no reply went out. *)
Definition kept (s s' : State) : Prop :=
  same_books s s' /\
  exists evs, trace s' = (trace s ++ evs)%list /\ no_reply evs.

(** A command that touches neither the books nor the forum, however it ends. *)
Definition quiet {A} (c : M A) : Prop :=
  forall s, match c s with
            | Done _ s' => kept s s'
            | Raise _ s' => kept s s'
            | OutOfFuel => True
            end.

(** What a run of network code did between [s] and [s']: the events it
    appended, the calls it made, the time it slept, and nothing else. *)
Definition ran (s s' : State) (evs : list event) : Prop :=
  trace s' = (trace s ++ evs)%list /\
  calls s' = (calls s + length (requests evs))%nat /\
  clock s' = clock s + sum_Z (sleeps evs) /\
  same_books s s'.

(** What the loop body has done for the submission [id] when it ends with
    [h] in [s'], having started in [s]. *)
Definition outcome_ok (id : string) (s : State) (h : handled) (s' : State) : Prop :=
  match h with
  | AlreadyCached => False
  | Replied =>
      exists rows evs text,
        store_rows (db s) rows /\
        submission_ids s' = evict (submission_ids s ++ [id]) /\
        db s' = set_table "submissions" (rows ++ [(id, clock s' - 1)])%list (db s) /\
        disk s' = db s' /\
        trace s' = (trace s ++ evs)%list /\
        In (ReqReply id text) (requests evs)
  | _ =>
      submission_ids s' = (submission_ids s ++ [id])%list /\
      db s' = db s /\ disk s' = disk s /\
      exists evs, trace s' = (trace s ++ evs)%list /\ no_reply evs
  end.

Definition stage (id : string) (c : M handled) : Prop :=
  forall s, match c s with
            | Done h s' => outcome_ok id s h s'
            | _ => True
            end.

(** The [i]-th sleep of a retry loop: 2, 4, 8, 16, then 32 for ever. *)
Definition backoff (i : nat) : Z := Z.min (2 ^ (Z.of_nat i + 1)) 32.

(** ** Path shapes

    The two shapes of a playlist link, as the segments of the path:
    [/playlist/{id}] and [/user/{username}/playlist/{id}]. *)
Definition playlist_shape (segments : list string) (id : string) : Prop :=
  segments = ["playlist"; id].

Definition user_playlist_shape (segments : list string) (id : string) : Prop :=
  exists username, segments = ["user"; username; "playlist"; id].

(** ** Sample inputs *)

Definition sample_track (pop : Z) : Track :=
  {| duration_ms := 120000; popularity := pop; artists := ["A"; "B"; "C"];
     track_name := "Song"; track_url := "https://open.spotify.com/track/t" |}.

Definition sample_item (pop : Z) : Item := {| track := Some (sample_track pop) |}.

Definition removed_item : Item := {| track := None |}.

Definition sample_playlist (items : list Item) : Playlist :=
  {| pl_name := "Mix"; owner_display_name := "bob";
     owner_url := "https://open.spotify.com/user/bob"; followers_total := 1234;
     tracks_items := items; tracks_total := Z.of_nat (length items) |}.

(** A submission created at time 1000 that links to the playlist [xyz]. *)
Definition sample_submission : Submission :=
  {| sub_id := "abc"; sub_created_utc := 1000;
     sub_url := "https://open.spotify.com/playlist/xyz";
     sub_host := Some "open.spotify.com"; sub_segments := ["playlist"; "xyz"];
     sub_permalink := "/r/SpotifyPlaylists/comments/abc" |}.

(** A submission that links to an album, and one that links elsewhere. *)
Definition album_submission : Submission :=
  {| sub_id := "def"; sub_created_utc := 1000;
     sub_url := "https://open.spotify.com/album/xyz";
     sub_host := Some "open.spotify.com"; sub_segments := ["album"; "xyz"];
     sub_permalink := "/r/SpotifyPlaylists/comments/def" |}.

Definition video_submission : Submission :=
  {| sub_id := "ghi"; sub_created_utc := 1000;
     sub_url := "https://www.youtube.com/watch";
     sub_host := Some "www.youtube.com"; sub_segments := ["watch"];
     sub_permalink := "/r/SpotifyPlaylists/comments/ghi" |}.

(** An answer that raises a network error [k] times and then returns [v]. *)
Definition flaky {A} (k : nat) (v : A) : nat -> outcome A :=
  fun n => if (n <? k)%nat then Raised NetworkError else Returned v.

Definition steady {A} (v : A) : nat -> outcome A := fun _ => Returned v.

(** A world in which every call succeeds at once: one submission, and the
    playlist [pl] behind every identifier. *)
Definition calm_world (subs : list Submission) (pl : Playlist) : World :=
  {| subreddit_new := steady subs;
     spotify_playlist := fun _ => steady pl;
     spotify_playlist_tracks := fun _ _ => steady [];
     submission_reply := fun _ _ => steady tt |}.

(** The playlist does not exist, and the very first request for it is lost
    to a network error. *)
Definition glitch_then_not_found : World :=
  {| subreddit_new := steady [sample_submission];
     spotify_playlist := fun _ n =>
       if (n =? 0)%nat then Raised NetworkError else Raised SpotifyException;
     spotify_playlist_tracks := fun _ _ => steady [];
     submission_reply := fun _ _ => steady tt |}.

(** The same, but the playlist comes into being before the fourth request. *)
Definition glitch_not_found_then_found : World :=
  {| subreddit_new := steady [sample_submission];
     spotify_playlist := fun _ n =>
       if (n =? 0)%nat then Raised NetworkError
       else if (n <? 3)%nat then Raised SpotifyException
       else Returned (sample_playlist [sample_item 7]);
     spotify_playlist_tracks := fun _ _ => steady [];
     submission_reply := fun _ _ => steady tt |}.

(** The page of 100 items that starts at [offset]. *)
Definition page (all : list Item) (offset : Z) : list Item :=
  firstn 100 (skipn (Z.to_nat offset) all).

(** A playlist service that holds the items [all], reports their number as
    the total and hands them out a page at a time. *)
Definition paged_playlist (all : list Item) : Playlist :=
  {| pl_name := "Mix"; owner_display_name := "bob";
     owner_url := "https://open.spotify.com/user/bob"; followers_total := 1234;
     tracks_items := page all 0; tracks_total := Z.of_nat (length all) |}.

Definition paged_world (subs : list Submission) (all : list Item) : World :=
  {| subreddit_new := steady subs;
     spotify_playlist := fun _ => steady (paged_playlist all);
     spotify_playlist_tracks := fun _ offset => steady (page all offset);
     submission_reply := fun _ _ => steady tt |}.

Definition items_250 : list Item :=
  map (fun n => sample_item (Z.of_nat n)) (seq 0 250).

(** One hundred fresh submissions that link to a video site; the [n]-th
    batch has the identifiers [100 * n], ..., [100 * n + 99]. *)
Definition video_batch (n : nat) : list Submission :=
  map (fun i =>
         {| sub_id := str_of_Z (Z.of_nat (100 * n + i)); sub_created_utc := 1000;
            sub_url := "https://www.youtube.com/watch";
            sub_host := Some "www.youtube.com"; sub_segments := ["watch"];
            sub_permalink := "/r/SpotifyPlaylists/comments/v" |})
      (seq 0 100).

(** The forum shows a new batch at every poll. *)
Definition busy_world : World :=
  {| subreddit_new := fun n => Returned (video_batch n);
     spotify_playlist := fun _ => steady (sample_playlist []);
     spotify_playlist_tracks := fun _ _ => steady [];
     submission_reply := fun _ _ => steady tt |}.

(** The playlist behind every link has been deleted. *)
Definition not_found_world : World :=
  {| subreddit_new := steady [sample_submission];
     spotify_playlist := fun _ _ => Raised SpotifyException;
     spotify_playlist_tracks := fun _ _ => steady [];
     submission_reply := fun _ _ => steady tt |}.

(** A store in which the table exists and is empty. *)
Definition empty_store : Database := [("submissions", [])].

(** A store that already has a row for the submission [abc]. *)
Definition seen_store : Database := [("submissions", [("abc", 1050)])].

(** A state whose cache holds the 125 identifiers [0], ..., [124]. *)
Definition full_cache_state : State :=
  {| submission_ids := map (fun i => str_of_Z (Z.of_nat i)) (seq 0 125);
     db := empty_store; disk := empty_store; clock := 1100; calls := O;
     trace := [] |}.

(** ** Further vocabulary for statements *)

Definition ranked_before (a b : Item) : Prop :=
  popularity_key b <= popularity_key a.

Definition has_key (k : Z) (it : Item) : bool := popularity_key it =? k.

Definition has_track (it : Item) : bool :=
  match track it with
  | Some _ => true
  | None => false
  end.

Definition popular (it : Item) : bool := 0 <? popularity_key it.

(** A grouped number with its commas taken out again. *)
Fixpoint strip_commas (s : string) : string :=
  match s with
  | EmptyString => EmptyString
  | String c t =>
      if Ascii.eqb c ","%char then strip_commas t else String c (strip_commas t)
  end.

Definition is_replied (h : handled) : bool :=
  match h with
  | Replied => true
  | _ => false
  end.

(** The identifiers of the submissions of a batch that were answered, in
    the order of the batch. *)
Definition replied_ids (subs : list Submission) (hs : list handled) : list string :=
  map (fun p => sub_id (fst p)) (filter (fun p => is_replied (snd p)) (combine subs hs)).

(** A world whose playlist service reports more tracks than it ever hands
    out. *)
Definition short_of_tracks_world : World :=
  {| subreddit_new := steady [sample_submission];
     spotify_playlist := fun _ =>
       steady {| pl_name := "Mix"; owner_display_name := "bob";
                 owner_url := "https://open.spotify.com/user/bob";
                 followers_total := 1234;
                 tracks_items := [sample_item 5]; tracks_total := 2 |};
     spotify_playlist_tracks := fun _ _ => steady [];
     submission_reply := fun _ _ => steady tt |}.


(** A submission whose link stops after [/user/bob]. *)
Definition short_path_submission : Submission :=
  {| sub_id := "jkl"; sub_created_utc := 1000;
     sub_url := "https://open.spotify.com/user/bob";
     sub_host := Some "open.spotify.com"; sub_segments := ["User"; "bob"];
     sub_permalink := "/r/SpotifyPlaylists/comments/jkl" |}.

(** A command from which no exception escapes. *)
Definition never_raises {A} (c : M A) : Prop :=
  forall s, match c s with
            | Raise _ _ => False
            | _ => True
            end.

(** * Properties *)

(** ** Formatting *)

Lemma join_pair (sep a b : string) : join sep [a; b] = a ++ sep ++ b.
Proof. reflexivity. Qed.

Lemma artists_string_three (a b c : string) :
  artists_string [a; b; c] = a ++ ", " ++ b ++ ", and " ++ c.
Proof. reflexivity. Qed.

(** ** The retry loop *)

Lemma backoff_0 : backoff 0 = 2.
Proof. reflexivity. Qed.

Lemma backoff_next (i : nat) :
  (if backoff i <? 32 then backoff i * 2 else backoff i) = backoff (S i).
Proof.
  unfold backoff.
  replace (Z.of_nat (S i) + 1) with (Z.succ (Z.of_nat i + 1)) by lia.
  rewrite Z.pow_succ_r by lia.
  destruct (Z.le_gt_cases (Z.of_nat i + 1) 4) as [Hle | Hgt].
  - assert (H : 2 ^ (Z.of_nat i + 1) <= 2 ^ 4) by (apply Z.pow_le_mono_r; lia).
    change (2 ^ 4) with 16 in H.
    rewrite (Z.min_l _ 32) by lia.
    rewrite (Z.min_l _ 32) by lia.
    destruct (Z.ltb_spec (2 ^ (Z.of_nat i + 1)) 32); lia.
  - assert (H : 2 ^ 5 <= 2 ^ (Z.of_nat i + 1)) by (apply Z.pow_le_mono_r; lia).
    change (2 ^ 5) with 32 in H.
    rewrite (Z.min_r _ 32) by lia.
    rewrite (Z.min_r _ 32) by lia.
    reflexivity.
Qed.

Lemma backoff_capped (i : nat) : (4 <= i)%nat -> backoff i = 32.
Proof.
  intros Hi. unfold backoff.
  assert (H : 2 ^ 5 <= 2 ^ (Z.of_nat i + 1)) by (apply Z.pow_le_mono_r; lia).
  change (2 ^ 5) with 32 in H. lia.
Qed.

Lemma sleeps_app (a b : list event) : sleeps (a ++ b) = (sleeps a ++ sleeps b)%list.
Proof. apply flat_map_app. Qed.

Lemma requests_app (a b : list event) :
  requests (a ++ b) = (requests a ++ requests b)%list.
Proof. apply flat_map_app. Qed.

Lemma sum_Z_app (a b : list Z) : sum_Z (a ++ b) = sum_Z a + sum_Z b.
Proof.
  induction a as [|x a IH]; cbn; [reflexivity|].
  fold (sum_Z (a ++ b)) (sum_Z a). lia.
Qed.

Lemma same_books_refl (s : State) : same_books s s.
Proof. repeat split. Qed.

Lemma same_books_trans (s1 s2 s3 : State) :
  same_books s1 s2 -> same_books s2 s3 -> same_books s1 s3.
Proof.
  unfold same_books. intros (A1 & B1 & C1) (A2 & B2 & C2).
  repeat split; congruence.
Qed.

(** The loop entered with the [j]-th sleep time, when the next [k] attempts
    fail and the one after returns [v]. *)
Lemma retry_loop_returns {A} (r : request) (answer : nat -> outcome A)
    (what : string) (v : A) :
  forall (k fuel j : nat) (attempt_count : Z) (s : State),
    (forall i, (i < k)%nat -> exists e, answer (calls s + i)%nat = Raised e) ->
    answer (calls s + k)%nat = Returned v ->
    (k < fuel)%nat ->
    exists s' evs,
      retry_loop fuel (net_call r answer) what (backoff j) attempt_count s = Done v s' /\
      ran s s' evs /\
      sleeps evs = map backoff (seq j (S k)) /\
      requests evs = repeat r (S k).
Proof.
  induction k as [|k IH]; intros fuel j ac s Hfail Hok Hfuel.
  - destruct fuel as [|fuel]; [lia|].
    rewrite Nat.add_0_r in Hok.
    eexists. eexists.
    split.
    { cbn [retry_loop]. unfold bind, log_info, sleep, try_, net_call, emit, ret.
      cbn. rewrite Hok. reflexivity. }
    unfold ran, same_books; cbn.
    split; [split|].
    + rewrite <- !app_assoc. cbn. reflexivity.
    + cbn. repeat split; lia.
    + cbn. split; reflexivity.
  - destruct fuel as [|fuel]; [lia|].
    destruct (Hfail O ltac:(lia)) as [e He]. rewrite Nat.add_0_r in He.
    set (s1 := {| submission_ids := submission_ids s; db := db s; disk := disk s;
                  clock := clock s + backoff j; calls := S (calls s);
                  trace := (trace s ++
                    [EvLog ("Reattempting " ++ what ++ " in " ++ str_of_Z (backoff j)
                            ++ " seconds");
                     EvSleep (backoff j); EvCall r;
                     EvLog ("Reattempt #" ++ str_of_Z ac ++ " failed")])%list |}).
    destruct (IH fuel (S j) (ac + 1) s1) as (s' & evs & Hrun & Hran & Hsl & Hrq).
    + intros i Hi. destruct (Hfail (S i) ltac:(lia)) as [e' He'].
      exists e'. cbn [calls s1]. rewrite <- He'. f_equal. lia.
    + cbn [calls s1]. rewrite <- Hok. f_equal. lia.
    + lia.
    + exists s'.
      exists ([EvLog ("Reattempting " ++ what ++ " in " ++ str_of_Z (backoff j)
                      ++ " seconds");
               EvSleep (backoff j); EvCall r;
               EvLog ("Reattempt #" ++ str_of_Z ac ++ " failed")] ++ evs)%list.
      split.
      * cbn [retry_loop]. unfold bind, log_info, sleep, try_, net_call, emit, ret.
        cbn. rewrite He. cbn. rewrite backoff_next.
        rewrite <- Hrun. unfold s1. rewrite <- !app_assoc. reflexivity.
      * destruct Hran as (Ht & Hc & Hk & Hb).
        split; [|split].
        -- unfold ran. rewrite Ht, Hc, Hk, requests_app, sleeps_app.
           rewrite sum_Z_app, length_app.
           remember (length (requests evs)) as rq. remember (sum_Z (sleeps evs)) as sl.
           unfold s1; cbn. rewrite <- !app_assoc. cbn.
           split; [reflexivity|]. split; [lia|]. split; [lia|].
           exact Hb.
        -- rewrite sleeps_app, Hsl. reflexivity.
        -- rewrite requests_app, Hrq. reflexivity.
Qed.

Lemma ran_after_first_failure (s : State) (r : request) (msg : string) :
  ran s {| submission_ids := submission_ids s; db := db s; disk := disk s;
           clock := clock s; calls := S (calls s);
           trace := ((trace s ++ [EvCall r]) ++ [EvLog msg])%list |}
      [EvCall r; EvLog msg].
Proof.
  unfold ran, same_books; cbn. rewrite <- app_assoc. cbn.
  repeat split; lia.
Qed.

Lemma ran_trans (s1 s2 s3 : State) (a b : list event) :
  ran s1 s2 a -> ran s2 s3 b -> ran s1 s3 (a ++ b).
Proof.
  intros (T1 & C1 & K1 & B1) (T2 & C2 & K2 & B2).
  unfold ran. rewrite T2, T1, C2, C1, K2, K1, requests_app, sleeps_app.
  rewrite length_app, sum_Z_app, app_assoc.
  split; [reflexivity|]. split; [lia|]. split; [lia|].
  eapply same_books_trans; eassumption.
Qed.

(** Attempts are numbered from 0 (the one outside the loop); the first [k]
    fail and attempt [k] returns [v]. *)
Lemma with_retry_returns {A} (r : request) (answer : nat -> outcome A)
    (failed what : string) (v : A) (k fuel : nat) (s : State) :
  (forall i, (i < k)%nat -> exists e, answer (calls s + i)%nat = Raised e) ->
  answer (calls s + k)%nat = Returned v ->
  (k <= fuel)%nat ->
  exists s' evs,
    with_retry fuel (net_call r answer) failed what s = Done v s' /\
    ran s s' evs /\
    sleeps evs = map backoff (seq 0 k) /\
    requests evs = repeat r (S k).
Proof.
  intros Hfail Hok Hfuel. destruct k as [|k].
  - rewrite Nat.add_0_r in Hok.
    eexists. exists [EvCall r].
    unfold with_retry, bind, try_, net_call, ret. rewrite Hok.
    split; [reflexivity|]. split; [|split; reflexivity].
    unfold ran, same_books; cbn. repeat split; lia.
  - destruct (Hfail O ltac:(lia)) as [e He]. rewrite Nat.add_0_r in He.
    pose proof (ran_after_first_failure s r failed) as Hfirst.
    match type of Hfirst with ran _ ?s1 _ => set (s1' := s1) in * end.
    destruct (retry_loop_returns r answer what v k fuel O 1 s1')
      as (s' & evs & Hrun & Hran & Hsl & Hrq).
    + intros i Hi. destruct (Hfail (S i) ltac:(lia)) as [e' He'].
      exists e'. cbn [calls s1']. rewrite <- He'. f_equal. lia.
    + cbn [calls s1']. rewrite <- Hok. f_equal. lia.
    + lia.
    + exists s', ([EvCall r; EvLog failed] ++ evs)%list.
      split.
      * unfold with_retry, bind, try_, net_call, log_info, emit. rewrite He. cbn.
        rewrite backoff_0 in Hrun. exact Hrun.
      * split; [eapply ran_trans; eassumption|].
        rewrite sleeps_app, requests_app, Hsl, Hrq. split; reflexivity.
Qed.

(** The playlist fetch, when the failure of the first attempt is not a
    [SpotifyException]. *)
Lemma fetch_playlist_returns (w : World) (playlist_id : string) (v : Playlist)
    (k fuel : nat) (s : State) :
  (forall i, (i < k)%nat ->
     exists e, spotify_playlist w playlist_id (calls s + i)%nat = Raised e) ->
  spotify_playlist w playlist_id (calls s) <> Raised SpotifyException ->
  spotify_playlist w playlist_id (calls s + k)%nat = Returned v ->
  (k <= fuel)%nat ->
  exists s' evs,
    fetch_playlist fuel w playlist_id s = Done (Some v) s' /\
    ran s s' evs /\
    sleeps evs = map backoff (seq 0 k) /\
    requests evs = repeat (ReqPlaylist playlist_id) (S k).
Proof.
  intros Hfail Hfirst Hok Hfuel.
  destruct (with_retry_returns (ReqPlaylist playlist_id)
              (spotify_playlist w playlist_id) "Failed to fetch playlist" "fetch"
              v k fuel s Hfail Hok Hfuel) as (s' & evs & Hrun & Hrest).
  exists s', evs. split; [|exact Hrest].
  revert Hrun. unfold fetch_playlist, with_retry, bind, try_, net_call, ret.
  destruct (spotify_playlist w playlist_id (calls s)) as [p | e] eqn:E.
  - intros H. inversion H; subst. reflexivity.
  - destruct e; try congruence;
      cbn; destruct (retry_loop _ _ _ _ _ _); congruence.
Qed.

(** C3. Every wrapped call that keeps failing is retried after sleeps of
    2, 4, 8, 16, 32, 32, ... seconds, for as long as it takes, and the result
    of the first attempt that returns is the result of the wrapper.  This
    holds for the wrapper used around [subreddit.new], [playlist_tracks] and
    [reply], and for the playlist fetch when the failure of its first attempt
    is not a [SpotifyException]. *)
Theorem retry_backoff_sequence :
  (forall A (r : request) (answer : nat -> outcome A) (failed what : string)
          (v : A) (k fuel : nat) (s : State),
      (forall i, (i < k)%nat -> exists e, answer (calls s + i)%nat = Raised e) ->
      answer (calls s + k)%nat = Returned v ->
      (k <= fuel)%nat ->
      exists s' evs,
        with_retry fuel (net_call r answer) failed what s = Done v s' /\
        ran s s' evs /\
        sleeps evs = map backoff (seq 0 k) /\
        requests evs = repeat r (S k)) /\
  (forall (w : World) (playlist_id : string) (v : Playlist) (k fuel : nat) (s : State),
      (forall i, (i < k)%nat ->
         exists e, spotify_playlist w playlist_id (calls s + i)%nat = Raised e) ->
      spotify_playlist w playlist_id (calls s) <> Raised SpotifyException ->
      spotify_playlist w playlist_id (calls s + k)%nat = Returned v ->
      (k <= fuel)%nat ->
      exists s' evs,
        fetch_playlist fuel w playlist_id s = Done (Some v) s' /\
        ran s s' evs /\
        sleeps evs = map backoff (seq 0 k) /\
        requests evs = repeat (ReqPlaylist playlist_id) (S k)) /\
  map backoff (seq 0 7) = [2; 4; 8; 16; 32; 32; 32] /\
  (forall i, (4 <= i)%nat -> backoff i = 32).
Proof.
  split; [|split; [|split]].
  - intros. eapply with_retry_returns; eassumption.
  - intros. eapply fetch_playlist_returns; eassumption.
  - reflexivity.
  - exact backoff_capped.
Qed.

Lemma retry_backoff_sequence_witness :
  (exists s' evs,
     with_retry 6 (net_call ReqNew (flaky 6 [sample_submission]))
       "Failed to fetch new submissions" "fetch" (startup None 0)
     = Done [sample_submission] s' /\
     ran (startup None 0) s' evs /\
     sleeps evs = [2; 4; 8; 16; 32; 32] /\
     requests evs = repeat ReqNew 7) /\
  (exists s' evs,
     fetch_playlist 3 glitch_not_found_then_found "xyz" (startup None 0)
     = Done (Some (sample_playlist [sample_item 7])) s' /\
     ran (startup None 0) s' evs /\
     sleeps evs = [2; 4; 8] /\
     requests evs = repeat (ReqPlaylist "xyz") 4).
Proof.
  split.
  - apply (proj1 retry_backoff_sequence _ ReqNew (flaky 6 [sample_submission])
             "Failed to fetch new submissions" "fetch" [sample_submission] 6%nat 6%nat
             (startup None 0)).
    + intros i Hi. exists NetworkError.
      change (calls (startup None 0) + i)%nat with i. unfold flaky.
      destruct (Nat.ltb_spec i 6); [reflexivity | lia].
    + reflexivity.
    + lia.
  - apply (proj1 (proj2 retry_backoff_sequence) glitch_not_found_then_found "xyz"
             (sample_playlist [sample_item 7]) 3%nat 3%nat (startup None 0)).
    + intros i Hi. change (calls (startup None 0) + i)%nat with i.
      destruct i as [|[|[|i]]]; [eexists; reflexivity .. | lia].
    + discriminate.
    + reflexivity.
    + lia.
Defined.

(** ** The playlist that is not there *)

Lemma retry_loop_never_returns {A} (r : request) (answer : nat -> outcome A)
    (what : string) :
  forall (fuel : nat) (sleep_time attempt_count : Z) (s : State),
    (forall n, (calls s <= n)%nat -> exists e, answer n = Raised e) ->
    retry_loop fuel (net_call r answer) what sleep_time attempt_count s = OutOfFuel.
Proof.
  induction fuel as [|fuel IH]; intros st ac s Hall; [reflexivity|].
  cbn [retry_loop]. unfold bind, log_info, sleep, try_, net_call, emit.
  cbn. destruct (Hall (calls s) (Nat.le_refl _)) as [e He]. rewrite He.
  apply IH. intros n Hn. apply Hall. cbn in Hn. lia.
Qed.

(** When the first attempt raises [SpotifyException], the fetch is made once,
    the identifier goes into the cache and nothing is sent. *)
Lemma not_found_at_first_attempt (fuel : nat) (w : World) (sub : Submission)
    (playlist_id : string) (s : State) :
  spotify_playlist w playlist_id (calls s) = Raised SpotifyException ->
  exists s' evs,
    fetch_and_reply fuel w sub playlist_id s = Done PlaylistNotFound s' /\
    trace s' = (trace s ++ evs)%list /\
    requests evs = [ReqPlaylist playlist_id] /\
    sleeps evs = [] /\
    submission_ids s' = (submission_ids s ++ [sub_id sub])%list /\
    db s' = db s /\ disk s' = disk s.
Proof.
  intros H. eexists. eexists.
  unfold fetch_and_reply, fetch_playlist, bind, log_info, try_, net_call, emit,
    append_id, set_submission_ids, ret.
  cbn. rewrite H. cbn.
  split; [reflexivity|]. cbn. rewrite <- app_assoc.
  split; [reflexivity|]. cbn. repeat split.
Qed.

(** C4 (code at the failing input).  The playlist does not exist and the first
    request is lost to a network error: every later attempt raises
    [SpotifyException] and every one of them is retried, so no amount of fuel
    lets the loop body end.  If the playlist appears after two such answers,
    the fetch has been made four times and a reply is sent. *)
Theorem not_found_inside_retry_loop_is_retried :
  (forall fuel,
     process_submission fuel glitch_then_not_found sample_submission
       (startup (Some empty_store) 1100) = OutOfFuel) /\
  (exists s',
     process_submission 3 glitch_not_found_then_found sample_submission
       (startup (Some empty_store) 1100) = Done Replied s' /\
     filter (fun r => negb (is_reply r)) (requests (trace s'))
       = repeat (ReqPlaylist "xyz") 4 /\
     existsb is_reply (requests (trace s')) = true /\
     sleeps (trace s') = [2; 4; 8; 1]).
Proof.
  split.
  - intros fuel.
    assert (E : extract_playlist_id (sub_host sample_submission)
                  (sub_segments sample_submission) = Returned (Identifier "xyz"))
      by reflexivity.
    unfold process_submission, handle_link. rewrite E.
    unfold fetch_and_reply, fetch_playlist.
    unfold bind, try_, log_info, emit. cbn -[retry_loop].
    rewrite retry_loop_never_returns; [reflexivity|].
    intros n Hn. cbn in Hn. exists SpotifyException.
    destruct n as [|n]; [lia | reflexivity].
  - eexists. split; [vm_compute; reflexivity|].
    split; [|split]; reflexivity.
Qed.

(** ** The artist list *)

(** Three artists or more: commas between all of them, and ["and"] after the
    last comma. *)
Lemma artists_string_many (a : string) (l : list string) (y z : string) :
  artists_string (a :: l ++ [y; z]) = join ", " (a :: l ++ [y ++ ", and " ++ z]).
Proof.
  assert (Hn : (length (a :: l ++ [y; z]) - 2 = length (a :: l))%nat)
    by (cbn [length]; rewrite length_app; cbn [length]; lia).
  assert (Hf : firstn (length (a :: l)) (a :: l ++ [y; z]) = a :: l).
  { change (a :: l ++ [y; z]) with ((a :: l) ++ [y; z])%list.
    rewrite firstn_app, Nat.sub_diag, firstn_all. cbn [firstn].
    apply app_nil_r. }
  assert (Hs : skipn (length (a :: l)) (a :: l ++ [y; z]) = [y; z]).
  { change (a :: l ++ [y; z]) with ((a :: l) ++ [y; z])%list.
    rewrite skipn_app, Nat.sub_diag, skipn_all. reflexivity. }
  assert (Hgen : join ", " (firstn (length (a :: l ++ [y; z]) - 2) (a :: l ++ [y; z])
                   ++ [join ", and " (skipn (length (a :: l ++ [y; z]) - 2)
                                         (a :: l ++ [y; z]))])
                 = join ", " (a :: l ++ [y ++ ", and " ++ z])).
  { rewrite Hn, Hf, Hs. reflexivity. }
  destruct l as [|b [|c l]]; try reflexivity.
  exact Hgen.
Qed.

(** C8 (as the code has it).  One artist gives the bare name, two give
    ["A and B"], and three give ["A, B, and C"]: the names before the last two
    are followed by a comma and a space, and the last two are joined by
    [", and "]. *)
Theorem artists_string_grammar :
  (forall a, artists_string [a] = a) /\
  (forall a b, artists_string [a; b] = a ++ " and " ++ b) /\
  (forall a b c, artists_string [a; b; c] = a ++ ", " ++ b ++ ", and " ++ c) /\
  artists_string ["A"; "B"; "C"] = "A, B, and C" /\
  (forall a l y z,
     artists_string (a :: l ++ [y; z]) = join ", " (a :: l ++ [y ++ ", and " ++ z])).
Proof.
  repeat split; try reflexivity.
  exact artists_string_many.
Qed.

(** C8 as stated fails: for three artists the code does not produce
    ["A, and B, and C"]. *)
Lemma artists_string_three_not_and_and :
  artists_string ["A"; "B"; "C"] <> "A, and B, and C".
Proof. vm_compute. discriminate. Qed.

(** ** The identifier extractor *)

Lemma extract_other_host (host : option string) (segments : list string) :
  host <> Some "open.spotify.com" ->
  extract_playlist_id host segments = Returned NotSpotify.
Proof.
  intros H. unfold extract_playlist_id, is_spotify_host.
  destruct host as [h|]; [|reflexivity].
  destruct (String.eqb_spec h "open.spotify.com"); [congruence | reflexivity].
Qed.

Lemma skip_keeps_quiet (msg id : string) (h : handled) (s : State) :
  (log_info msg ;; append_id id ;; ret h) s
  = Done h {| submission_ids := submission_ids s ++ [id]; db := db s;
              disk := disk s; clock := clock s; calls := calls s;
              trace := trace s ++ [EvLog msg] |}.
Proof. reflexivity. Qed.

(** C6 (as the code has it).  A URL on another host is skipped.  On
    [open.spotify.com] only the first segment is looked at, whatever its
    case: after [playlist] the second segment is the identifier, after [user]
    the fourth one is (whatever the third segment), and with any other first
    segment no identifier is found and the submission is skipped.  Skipping
    puts the identifier in the cache and calls neither service. *)
Theorem extract_playlist_id_by_first_segment :
  forall (host : option string) (segments : list string),
    (host <> Some "open.spotify.com" ->
       extract_playlist_id host segments = Returned NotSpotify) /\
    (host = Some "open.spotify.com" ->
       (forall seg0 id rest,
          segments = seg0 :: id :: rest -> lower seg0 = "playlist" ->
          extract_playlist_id host segments = Returned (Identifier id)) /\
       (forall seg0 seg1 seg2 id rest,
          segments = seg0 :: seg1 :: seg2 :: id :: rest -> lower seg0 = "user" ->
          extract_playlist_id host segments = Returned (Identifier id)) /\
       (forall seg0 rest,
          segments = seg0 :: rest ->
          lower seg0 <> "playlist" -> lower seg0 <> "user" ->
          extract_playlist_id host segments = Returned NoIdentifier)) /\
    (forall fuel w sub s,
       sub_host sub = host -> sub_segments sub = segments ->
       (extract_playlist_id host segments = Returned NotSpotify ->
          process_link_skips fuel w sub s InvalidUrl) /\
       (extract_playlist_id host segments = Returned NoIdentifier ->
          process_link_skips fuel w sub s NoPlaylistId)).
Proof.
  intros host segments. split; [apply extract_other_host|]. split.
  - intros ->. unfold extract_playlist_id. cbn [is_spotify_host].
    rewrite String.eqb_refl. cbn [negb].
    split; [|split].
    + intros seg0 id rest -> Hl. cbn. rewrite Hl. reflexivity.
    + intros seg0 seg1 seg2 id rest -> Hl. cbn. rewrite Hl. reflexivity.
    + intros seg0 rest -> Hp Hu. cbn.
      destruct (String.eqb_spec (lower seg0) "playlist"); [congruence|].
      destruct (String.eqb_spec (lower seg0) "user"); [congruence|].
      reflexivity.
  - intros fuel w sub s Hh Hs. subst host segments.
    unfold process_link_skips, handle_link, lift.
    split; intros E; unfold bind at 1; rewrite E; cbn [ret];
      eexists; (split; [apply skip_keeps_quiet|]);
      cbn [submission_ids trace calls db disk];
      rewrite requests_app, app_nil_r; repeat split.
Qed.

Lemma extract_playlist_id_by_first_segment_witness :
  extract_playlist_id (Some "www.youtube.com") ["watch"] = Returned NotSpotify /\
  extract_playlist_id (Some "open.spotify.com") ["Playlist"; "xyz"]
    = Returned (Identifier "xyz") /\
  extract_playlist_id (Some "open.spotify.com") ["user"; "bob"; "playlist"; "xyz"]
    = Returned (Identifier "xyz") /\
  extract_playlist_id (Some "open.spotify.com") ["album"; "xyz"]
    = Returned NoIdentifier /\
  process_link_skips 0 (calm_world [] (sample_playlist [])) video_submission
    (startup None 0) InvalidUrl /\
  process_link_skips 0 (calm_world [] (sample_playlist [])) album_submission
    (startup None 0) NoPlaylistId.
Proof.
  split; [|split; [|split; [|split; [|split]]]].
  - apply (proj1 (extract_playlist_id_by_first_segment
                    (Some "www.youtube.com") ["watch"])).
    discriminate.
  - apply (proj1 (proj1 (proj2 (extract_playlist_id_by_first_segment
                    (Some "open.spotify.com") ["Playlist"; "xyz"])) eq_refl)
             "Playlist" "xyz" []); reflexivity.
  - apply (proj1 (proj2 (proj1 (proj2 (extract_playlist_id_by_first_segment
                    (Some "open.spotify.com") ["user"; "bob"; "playlist"; "xyz"]))
                    eq_refl))
             "user" "bob" "playlist" "xyz" []); reflexivity.
  - apply (proj2 (proj2 (proj1 (proj2 (extract_playlist_id_by_first_segment
                    (Some "open.spotify.com") ["album"; "xyz"])) eq_refl))
             "album" ["xyz"]); [reflexivity | discriminate | discriminate].
  - apply (proj2 (proj2 (extract_playlist_id_by_first_segment
                    (Some "www.youtube.com") ["watch"]))
             0%nat (calm_world [] (sample_playlist [])) video_submission
             (startup None 0)); reflexivity.
  - apply (proj2 (proj2 (extract_playlist_id_by_first_segment
                    (Some "open.spotify.com") ["album"; "xyz"]))
             0%nat (calm_world [] (sample_playlist [])) album_submission
             (startup None 0)); reflexivity.
Defined.

(** C6 as stated fails: a path under [/user/] whose third segment is not
    [playlist] has neither of the two shapes, and yet its fourth segment is
    returned as the identifier. *)
Lemma extract_user_path_without_playlist :
  (forall id, ~ playlist_shape ["user"; "bob"; "album"; "xyz"] id) /\
  (forall id, ~ user_playlist_shape ["user"; "bob"; "album"; "xyz"] id) /\
  extract_playlist_id (Some "open.spotify.com") ["user"; "bob"; "album"; "xyz"]
    = Returned (Identifier "xyz") /\
  extract_playlist_id (Some "open.spotify.com") ["user"; "bob"; "album"; "xyz"]
    <> Returned NoIdentifier.
Proof.
  split; [|split; [|split]].
  - intros id H. unfold playlist_shape in H. discriminate.
  - intros id [u H]. discriminate.
  - reflexivity.
  - vm_compute. discriminate.
Qed.

(** A path too short for the segment that is read ends the program. *)
Lemma extract_short_path_raises :
  extract_playlist_id (Some "open.spotify.com") ["user"; "bob"] = Raised IndexError /\
  extract_playlist_id (Some "open.spotify.com") ["playlist"] = Raised IndexError /\
  extract_playlist_id (Some "open.spotify.com") [] = Raised IndexError.
Proof. repeat split. Qed.

(** ** Removed tracks *)

Lemma total_ms_skips_removed (items : list Item) :
  total_ms (removed_item :: items) = total_ms items.
Proof. reflexivity. Qed.

Lemma total_ms_cons_present (t : Track) (items : list Item) :
  total_ms ({| track := Some t |} :: items) = duration_ms t + total_ms items.
Proof. reflexivity. Qed.

Lemma popularity_key_removed : popularity_key removed_item = 0.
Proof. reflexivity. Qed.

(** The ranking holds the same items. *)
Lemma insert_ranked_perm (x : Item) (l : list Item) :
  Permutation (insert_ranked x l) (x :: l).
Proof.
  induction l as [|y l IH]; cbn [insert_ranked]; [reflexivity|].
  destruct (popularity_key y <=? popularity_key x); [reflexivity|].
  rewrite IH. apply perm_swap.
Qed.

Lemma ranked_tracks_perm (items : list Item) :
  Permutation (ranked_tracks items) items.
Proof.
  induction items as [|x items IH]; [reflexivity|].
  cbn [ranked_tracks fold_right]. fold (ranked_tracks items).
  rewrite insert_ranked_perm. apply perm_skip. exact IH.
Qed.

(** The ranking goes down in popularity, a removed track counting as 0. *)
Lemma insert_ranked_sorted (x : Item) (l : list Item) :
  Sorted (fun a b => popularity_key b <= popularity_key a) l ->
  Sorted (fun a b => popularity_key b <= popularity_key a) (insert_ranked x l).
Proof.
  induction l as [|y l IH]; intros Hs; cbn [insert_ranked].
  - repeat constructor.
  - destruct (Z.leb_spec (popularity_key y) (popularity_key x)) as [Hle | Hgt].
    + constructor; [exact Hs|]. constructor. exact Hle.
    + inversion Hs as [|? ? Hs' Hhd]; subst.
      constructor; [apply IH; exact Hs'|].
      destruct l as [|z l]; cbn [insert_ranked].
      * constructor. lia.
      * destruct (popularity_key z <=? popularity_key x).
        -- constructor. lia.
        -- inversion Hhd; subst. constructor. assumption.
Qed.

Lemma ranked_tracks_sorted (items : list Item) :
  Sorted (fun a b => popularity_key b <= popularity_key a) (ranked_tracks items).
Proof.
  induction items as [|x items IH]; [constructor|].
  cbn [ranked_tracks fold_right]. fold (ranked_tracks items).
  apply insert_ranked_sorted. exact IH.
Qed.

Example ranking_of_seven :
  map popularity_key
      (firstn 5 (ranked_tracks (map sample_item [10; 90; 50; 0; 70; 30; 60])))
  = [90; 70; 60; 50; 30].
Proof. reflexivity. Qed.

Lemma top_tracks_raises (l : list Item) :
  top_tracks l = Raised TypeError <-> exists it, In it l /\ track it = None.
Proof.
  induction l as [|it l IH]; cbn [top_tracks].
  - split; [discriminate | intros (it & [] & _)].
  - destruct (track it) as [t|] eqn:E.
    + destruct (top_tracks l) as [lines | e] eqn:El.
      * split; [discriminate|].
        intros (it' & [-> | Hin] & Hnone); [congruence|].
        assert (H : Returned lines = Raised TypeError)
          by (apply IH; exists it'; split; assumption).
        discriminate.
      * split.
        -- intros H. injection H as ->.
           destruct (proj1 IH eq_refl) as (it' & Hin & Hnone).
           exists it'. split; [right|]; assumption.
        -- intros _. f_equal.
           clear IH. revert e El. induction l as [|x l IHl]; cbn [top_tracks].
           ++ discriminate.
           ++ destruct (track x); [|congruence].
              destruct (top_tracks l) eqn:E'; [discriminate|].
              intros e0 H. injection H as <-. apply IHl. reflexivity.
    + split; [|reflexivity]. intros _. exists it. split; [left; reflexivity | exact E].
Qed.

(** The reply cannot be rendered exactly when a removed track is among the
    five best ranked items. *)
Lemma build_response_raises (playlist : Playlist) (items : list Item) (url : string) :
  build_response playlist items url = Raised TypeError <->
  exists it, In it (firstn 5 (ranked_tracks items)) /\ track it = None.
Proof.
  rewrite <- top_tracks_raises. unfold build_response.
  destruct (top_tracks (firstn 5 (ranked_tracks items))) as [lines | e].
  - split; discriminate.
  - split; intros H; injection H as ->; reflexivity.
Qed.

(** C7 (code at the failing input).  A playlist of one removed track and one
    real track: the duration skips the removed track and the ranking takes it
    with popularity 0, but it is among the five best, the reply text cannot be
    built, and [TypeError] leaves the loop body: no reply, nothing recorded. *)
Theorem removed_track_in_top_five_raises :
  total_ms [removed_item; sample_item 5] = 120000 /\
  ranked_tracks [removed_item; sample_item 5] = [sample_item 5; removed_item] /\
  build_response (sample_playlist [removed_item; sample_item 5])
    [removed_item; sample_item 5] (sub_url sample_submission) = Raised TypeError /\
  exists s',
    process_submission 1
      (calm_world [sample_submission] (sample_playlist [removed_item; sample_item 5]))
      sample_submission (startup (Some empty_store) 1100) = Raise TypeError s' /\
    existsb is_reply (requests (trace s')) = false /\
    submission_ids s' = [] /\
    disk s' = empty_store.
Proof.
  split; [reflexivity|]. split; [reflexivity|]. split; [reflexivity|].
  eexists. split; [vm_compute; reflexivity|].
  repeat split.
Qed.

(** ** The gate *)

Lemma existsb_eqb_In (id : string) (l : list string) :
  existsb (String.eqb id) l = true <-> In id l.
Proof.
  rewrite existsb_exists. split.
  - intros (x & Hin & He). apply String.eqb_eq in He. subst. exact Hin.
  - intros Hin. exists id. split; [exact Hin | apply String.eqb_refl].
Qed.

Lemma existsb_eqb_not_In (id : string) (l : list string) :
  existsb (String.eqb id) l = false <-> ~ In id l.
Proof.
  rewrite <- existsb_eqb_In. destruct (existsb (String.eqb id) l); split;
    congruence.
Qed.

Lemma existsb_row_In (id : string) (rows : Table) :
  existsb (fun r => String.eqb (fst r) id) rows = true <-> In id (map fst rows).
Proof.
  rewrite existsb_exists, in_map_iff. split.
  - intros (r & Hin & He). apply String.eqb_eq in He. exists r. split; assumption.
  - intros (r & He & Hin). exists r. split; [exact Hin|].
    rewrite He. apply String.eqb_refl.
Qed.

Lemma gate_cached (fuel : nat) (w : World) (sub : Submission) (s : State) :
  cached (sub_id sub) s ->
  process_submission fuel w sub s = Done AlreadyCached s.
Proof.
  intros H. apply existsb_eqb_In in H. unfold process_submission.
  rewrite H. reflexivity.
Qed.

Lemma gate_stale (fuel : nat) (w : World) (sub : Submission) (s : State) :
  ~ cached (sub_id sub) s -> stale sub s ->
  process_submission fuel w sub s = Done Stale (with_id (sub_id sub) s).
Proof.
  intros Hc Hs. apply existsb_eqb_not_In in Hc. unfold process_submission.
  rewrite Hc. unfold bind at 1. unfold utcnow_timestamp.
  destruct (Z.ltb_spec (sub_created_utc sub) (clock s - 900)) as [_ | Hge].
  - reflexivity.
  - unfold stale in Hs. lia.
Qed.

Lemma gate_select (fuel : nat) (w : World) (sub : Submission) (s : State) :
  ~ cached (sub_id sub) s -> ~ stale sub s ->
  process_submission fuel w sub s
  = (seen <- db_select (sub_id sub) ;;
     if seen then append_id (sub_id sub) ;; ret InStore
     else handle_link fuel w sub) s.
Proof.
  intros Hc Hs. apply existsb_eqb_not_In in Hc. unfold process_submission.
  rewrite Hc. unfold bind at 1. unfold utcnow_timestamp.
  destruct (Z.ltb_spec (sub_created_utc sub) (clock s - 900)) as [Hlt | _].
  - unfold stale in Hs. lia.
  - reflexivity.
Qed.

Lemma gate_no_table (fuel : nat) (w : World) (sub : Submission) (s : State) :
  ~ cached (sub_id sub) s -> ~ stale sub s ->
  table_of "submissions" (db s) = None ->
  process_submission fuel w sub s = Raise OperationalError s.
Proof.
  intros Hc Hs Ht. rewrite gate_select by assumption.
  unfold bind, db_select. rewrite Ht. reflexivity.
Qed.

Lemma gate_stored (fuel : nat) (w : World) (sub : Submission) (s : State) :
  ~ cached (sub_id sub) s -> ~ stale sub s -> stored (sub_id sub) (db s) ->
  process_submission fuel w sub s = Done InStore (with_id (sub_id sub) s).
Proof.
  intros Hc Hs (rows & Ht & Hin). rewrite gate_select by assumption.
  apply existsb_row_In in Hin. unfold store_rows in Ht.
  unfold bind at 1. unfold db_select. rewrite Ht, Hin. reflexivity.
Qed.

Lemma gate_new (fuel : nat) (w : World) (sub : Submission) (s : State) :
  ~ cached (sub_id sub) s -> ~ stale sub s -> not_stored (sub_id sub) (db s) ->
  process_submission fuel w sub s = handle_link fuel w sub s.
Proof.
  intros Hc Hs (rows & Ht & Hin). rewrite gate_select by assumption.
  unfold store_rows in Ht.
  assert (He : existsb (fun r => String.eqb (fst r) (sub_id sub)) rows = false).
  { destruct (existsb (fun r => String.eqb (fst r) (sub_id sub)) rows) eqn:E;
      [|reflexivity].
    apply existsb_row_In in E. contradiction. }
  unfold bind at 1. unfold db_select. rewrite Ht, He. reflexivity.
Qed.

(** C5. The gate tests in this order and stops at the first test that holds:
    an identifier in the cache is skipped and nothing changes; otherwise a
    submission older than 900 seconds is skipped and its identifier appended
    to the cache; otherwise an identifier found in the store is skipped and
    appended to the cache; otherwise the link is processed.  The first three
    outcomes call no service. *)
Theorem gate_order :
  forall (fuel : nat) (w : World) (sub : Submission) (s : State),
    (cached (sub_id sub) s ->
       process_submission fuel w sub s = Done AlreadyCached s) /\
    (~ cached (sub_id sub) s -> stale sub s ->
       process_submission fuel w sub s = Done Stale (with_id (sub_id sub) s)) /\
    (~ cached (sub_id sub) s -> ~ stale sub s -> stored (sub_id sub) (db s) ->
       process_submission fuel w sub s = Done InStore (with_id (sub_id sub) s)) /\
    (~ cached (sub_id sub) s -> ~ stale sub s -> not_stored (sub_id sub) (db s) ->
       process_submission fuel w sub s = handle_link fuel w sub s) /\
    submission_ids (with_id (sub_id sub) s) = (submission_ids s ++ [sub_id sub])%list /\
    trace (with_id (sub_id sub) s) = trace s /\
    calls (with_id (sub_id sub) s) = calls s /\
    db (with_id (sub_id sub) s) = db s /\
    disk (with_id (sub_id sub) s) = disk s.
Proof.
  intros fuel w sub s.
  split; [apply gate_cached|].
  split; [apply gate_stale|].
  split; [apply gate_stored|].
  split; [apply gate_new|].
  repeat split.
Qed.

Lemma gate_order_witness :
  process_submission 1 not_found_world sample_submission
    (with_id "abc" (startup (Some empty_store) 1100))
  = Done AlreadyCached (with_id "abc" (startup (Some empty_store) 1100)) /\
  process_submission 1 not_found_world sample_submission
    (startup (Some empty_store) 5000)
  = Done Stale (with_id "abc" (startup (Some empty_store) 5000)) /\
  process_submission 1 not_found_world sample_submission
    (startup (Some seen_store) 1100)
  = Done InStore (with_id "abc" (startup (Some seen_store) 1100)) /\
  process_submission 1 not_found_world sample_submission
    (startup (Some empty_store) 1100)
  = handle_link 1 not_found_world sample_submission
      (startup (Some empty_store) 1100).
Proof.
  split; [|split; [|split]].
  - apply (proj1 (gate_order 1 not_found_world sample_submission
                    (with_id "abc" (startup (Some empty_store) 1100)))).
    left. reflexivity.
  - apply (proj1 (proj2 (gate_order 1 not_found_world sample_submission
                           (startup (Some empty_store) 5000)))).
    + intros [].
    + unfold stale. cbn. lia.
  - apply (proj1 (proj2 (proj2 (gate_order 1 not_found_world sample_submission
                                  (startup (Some seen_store) 1100))))).
    + intros [].
    + unfold stale. cbn. lia.
    + exists [("abc", 1050)]. split; [reflexivity | left; reflexivity].
  - apply (proj1 (proj2 (proj2 (proj2 (gate_order 1 not_found_world
                                         sample_submission
                                         (startup (Some empty_store) 1100)))))).
    + intros [].
    + unfold stale. cbn. lia.
    + exists []. split; [reflexivity | intros []].
Defined.

(** ** A database that was never set up *)

(** C9 (code at the failing input).  [sqlite3.connect] on a missing file
    gives a database without tables, nothing in [main] creates one, and the
    first submission that reaches the [select] ends the program with
    [OperationalError]. *)
Theorem fresh_database_select_raises :
  forall (fuel : nat) (w : World) (sub : Submission) (now : Z),
    now - 900 <= sub_created_utc sub ->
    table_of "submissions" (sqlite3_connect None) = None /\
    process_submission fuel w sub (startup None now)
      = Raise OperationalError (startup None now) /\
    (subreddit_new w O = Returned [sub] ->
     exists s', main 1 fuel w None now = Raise OperationalError s').
Proof.
  intros fuel w sub now Hfresh.
  assert (Hp : process_submission fuel w sub (startup None now)
               = Raise OperationalError (startup None now)).
  { apply gate_no_table.
    - intros [].
    - unfold stale. cbn [clock startup]. lia.
    - reflexivity. }
  split; [reflexivity|]. split; [exact Hp|].
  intros Hnew. eexists.
  unfold main, work_loop, poll, with_retry, bind, try_, net_call.
  cbn [calls startup]. rewrite Hnew. unfold ret at 1. cbn [for_each]. unfold bind.
  rewrite gate_no_table; [reflexivity | | | reflexivity].
  - intros [].
  - unfold stale. cbn. lia.
Qed.

Lemma fresh_database_select_raises_witness :
  table_of "submissions" (sqlite3_connect None) = None /\
  process_submission 1 (calm_world [sample_submission] (sample_playlist [sample_item 5]))
    sample_submission (startup None 1100)
  = Raise OperationalError (startup None 1100) /\
  exists s',
    main 1 1 (calm_world [sample_submission] (sample_playlist [sample_item 5]))
      None 1100 = Raise OperationalError s'.
Proof.
  destruct (fresh_database_select_raises 1
              (calm_world [sample_submission] (sample_playlist [sample_item 5]))
              sample_submission 1100) as (H1 & H2 & H3).
  - cbn. lia.
  - split; [exact H1|]. split; [exact H2|]. apply H3. reflexivity.
Defined.

(** ** Pages *)

Lemma firstn_add {A} (a b : nat) (l : list A) :
  firstn (a + b) l = (firstn a l ++ firstn b (skipn a l))%list.
Proof.
  revert l. induction a as [|a IH]; intros l; [reflexivity|].
  destruct l as [|x l]; cbn.
  - destruct b; reflexivity.
  - rewrite IH. reflexivity.
Qed.

Lemma fetch_all_tracks_eq (fuel : nat) (w : World) (playlist_id : string)
    (items : list Item) (total offset : Z) :
  fetch_all_tracks fuel w playlist_id items total offset
  = if Z.of_nat (length items) <? total then
      match fuel with
      | O => fun _ => OutOfFuel
      | S fuel' =>
          tracks <- with_retry fuel
                      (net_call (ReqTracks playlist_id offset)
                                (spotify_playlist_tracks w playlist_id offset))
                      "Failed to fetch playlist tracks" "fetch" ;;
          sleep 1 ;;
          fetch_all_tracks fuel' w playlist_id (items ++ tracks) total (offset + 100)
      end
    else ret items.
Proof. destruct fuel; reflexivity. Qed.

Lemma ran_sleep (s : State) (n : Z) :
  exists s', sleep n s = Done tt s' /\ ran s s' [EvSleep n].
Proof.
  eexists. split; [reflexivity|].
  unfold ran, same_books; cbn. repeat split; lia.
Qed.

(** With the items [all] behind the service and the first [100 * j] of them
    in hand, the loop asks for the pages at [100 * j], [100 * (j + 1)], ...
    and stops as soon as nothing is missing: [m] pages in all. *)
Lemma fetch_all_tracks_pages (w : World) (playlist_id : string) (all : list Item) :
  (forall offset n,
     spotify_playlist_tracks w playlist_id offset n = Returned (page all offset)) ->
  forall (m j fuel : nat) (s : State),
    (m <= fuel)%nat ->
    (length all <= 100 * (j + m))%nat ->
    (m = 0 \/ 100 * (j + m - 1) < length all)%nat ->
    exists s' evs,
      fetch_all_tracks fuel w playlist_id (firstn (100 * j) all)
        (Z.of_nat (length all)) (Z.of_nat (100 * j)) s = Done all s' /\
      ran s s' evs /\
      requests evs
        = map (fun i => ReqTracks playlist_id (Z.of_nat (100 * i))) (seq j m) /\
      sleeps evs = repeat 1 m.
Proof.
  intros Hpage. induction m as [|m IH]; intros j fuel s Hfuel Hlen Hlast.
  - exists s, []. rewrite fetch_all_tracks_eq.
    rewrite firstn_all2 by lia.
    rewrite Z.ltb_irrefl.
    split; [reflexivity|]. split; [|split; reflexivity].
    unfold ran, same_books; cbn. rewrite app_nil_r. repeat split; lia.
  - destruct Hlast as [Hm | Hlast]; [discriminate|].
    destruct fuel as [|fuel]; [lia|].
    rewrite fetch_all_tracks_eq.
    assert (Hj : (100 * j < length all)%nat) by lia.
    rewrite length_firstn, Nat.min_l by lia.
    destruct (Z.ltb_spec (Z.of_nat (100 * j)) (Z.of_nat (length all))) as [_ | Hge];
      [|lia].
    destruct (with_retry_returns (ReqTracks playlist_id (Z.of_nat (100 * j)))
                (spotify_playlist_tracks w playlist_id (Z.of_nat (100 * j)))
                "Failed to fetch playlist tracks" "fetch"
                (page all (Z.of_nat (100 * j))) O (S fuel) s)
      as (s1 & evs1 & Hrun1 & Hran1 & Hsl1 & Hrq1).
    { intros i Hi. lia. }
    { apply Hpage. }
    { lia. }
    destruct (ran_sleep s1 1) as (s2 & Hrun2 & Hran2).
    destruct (IH (S j) fuel s2) as (s' & evs & Hrun & Hran & Hrq & Hsl).
    { lia. }
    { lia. }
    { destruct m; [left; reflexivity | right; lia]. }
    exists s', ((evs1 ++ [EvSleep 1]) ++ evs)%list.
    split; [|split; [|split]].
    + unfold bind. rewrite Hrun1, Hrun2.
      replace (firstn (100 * j) all ++ page all (Z.of_nat (100 * j)))%list
        with (firstn (100 * S j) all).
      * replace (Z.of_nat (100 * j) + 100) with (Z.of_nat (100 * S j)) by lia.
        exact Hrun.
      * unfold page. rewrite Nat2Z.id.
        replace (100 * S j)%nat with (100 * j + 100)%nat by lia.
        apply firstn_add.
    + eapply ran_trans; [eapply ran_trans|]; eassumption.
    + rewrite !requests_app, Hrq1, Hrq. reflexivity.
    + rewrite !sleeps_app, Hsl1, Hsl. reflexivity.
Qed.

(** ** After the reply *)

Lemma record_reply_done (sub : Submission) (s : State) (rows : Table) :
  store_rows (db s) rows ->
  record_reply sub s
  = Done Replied
      {| submission_ids := evict (submission_ids s ++ [sub_id sub]);
         db := set_table "submissions" (rows ++ [(sub_id sub, clock s)])%list (db s);
         disk := set_table "submissions" (rows ++ [(sub_id sub, clock s)])%list (db s);
         clock := clock s + 1;
         calls := calls s;
         trace := trace s ++ [EvSleep 1] |}.
Proof.
  intros Ht. unfold store_rows in Ht.
  unfold record_reply, bind, append_id, utcnow_timestamp, db_insert, db_commit,
    evict_ids, sleep, ret, set_submission_ids, set_db.
  cbn. rewrite Ht. reflexivity.
Qed.

Lemma record_reply_no_table (sub : Submission) (s : State) :
  table_of "submissions" (db s) = None ->
  exists s', record_reply sub s = Raise OperationalError s'.
Proof.
  intros Ht. eexists.
  unfold record_reply, bind, append_id, utcnow_timestamp, db_insert,
    set_submission_ids.
  cbn. rewrite Ht. reflexivity.
Qed.

(** C10. The service holds 250 items and hands out pages of 100; the first
    100 came with the playlist.  The loop asks for exactly two more pages, at
    offsets 100 and 200, ends with all 250 items in order, and the reply is
    built from those 250 items. *)
Theorem pagination_of_250 :
  forall (fuel : nat) (w : World) (playlist_id : string) (all : list Item) (s : State),
    length all = 250%nat ->
    (forall offset n,
       spotify_playlist_tracks w playlist_id offset n = Returned (page all offset)) ->
    (2 <= fuel)%nat ->
    length (page all 0) = 100%nat /\
    (exists s' evs,
       fetch_all_tracks fuel w playlist_id (page all 0) 250 100 s = Done all s' /\
       ran s s' evs /\
       requests evs = [ReqTracks playlist_id 100; ReqTracks playlist_id 200]) /\
    (forall (sub : Submission) (playlist : Playlist) (text : string) (rows : Table),
       tracks_items playlist = page all 0 ->
       tracks_total playlist = 250 ->
       build_response playlist all (sub_url sub) = Returned text ->
       (forall n, submission_reply w (sub_id sub) text n = Returned tt) ->
       store_rows (db s) rows ->
       exists s' evs,
         summarise_and_reply fuel w sub playlist_id playlist s = Done Replied s' /\
         trace s' = (trace s ++ evs)%list /\
         requests evs = [ReqTracks playlist_id 100; ReqTracks playlist_id 200;
                         ReqReply (sub_id sub) text]).
Proof.
  intros fuel w pid all s Hlen Hpage Hfuel.
  assert (Hfirst : page all 0 = firstn (100 * 1) all) by reflexivity.
  assert (Hfetch : forall s0, exists s' evs,
             fetch_all_tracks fuel w pid (page all 0) 250 100 s0 = Done all s' /\
             ran s0 s' evs /\
             requests evs = [ReqTracks pid 100; ReqTracks pid 200]).
  { intros s0.
    destruct (fetch_all_tracks_pages w pid all Hpage 2 1 fuel s0)
      as (s' & evs & Hrun & Hran & Hrq & _); [lia | lia | right; lia |].
    exists s', evs. rewrite Hfirst.
    rewrite Hlen in Hrun. split; [exact Hrun|]. split; [exact Hran|exact Hrq]. }
  split; [|split].
  - rewrite Hfirst, length_firstn. lia.
  - apply Hfetch.
  - intros sub playlist text rows Hitems Htotal Hbuild Hreply Hrows.
    destruct (Hfetch s) as (s1 & evs1 & Hrun1 & Hran1 & Hrq1).
    destruct (with_retry_returns (ReqReply (sub_id sub) text)
                (submission_reply w (sub_id sub) text)
                "Failed to submit response" "submission" tt O fuel s1)
      as (s2 & evs2 & Hrun2 & Hran2 & _ & Hrq2);
      [intros i Hi; lia | apply Hreply | lia |].
    assert (Hrows2 : store_rows (db s2) rows).
    { destruct Hran1 as (_ & _ & _ & _ & D1 & _).
      destruct Hran2 as (_ & _ & _ & _ & D2 & _).
      unfold store_rows. rewrite D2, D1. exact Hrows. }
    eexists. exists ((evs1 ++ evs2) ++ [EvSleep 1])%list.
    split; [|split].
    + unfold summarise_and_reply, bind. rewrite Hitems, Htotal, Hrun1, Hbuild.
      cbn [lift ret]. rewrite Hrun2. apply (record_reply_done sub s2 rows Hrows2).
    + cbn [trace]. destruct Hran1 as (T1 & _). destruct Hran2 as (T2 & _).
      rewrite T2, T1, <- !app_assoc. reflexivity.
    + rewrite !requests_app, Hrq1, Hrq2. reflexivity.
Qed.

Lemma pagination_of_250_witness :
  length (page items_250 0) = 100%nat /\
  (exists s' evs,
     fetch_all_tracks 2 (paged_world [sample_submission] items_250) "xyz"
       (page items_250 0) 250 100 (startup (Some empty_store) 1100)
     = Done items_250 s' /\
     ran (startup (Some empty_store) 1100) s' evs /\
     requests evs = [ReqTracks "xyz" 100; ReqTracks "xyz" 200]).
Proof.
  destruct (pagination_of_250 2 (paged_world [sample_submission] items_250) "xyz"
              items_250 (startup (Some empty_store) 1100)) as (H1 & H2 & _).
  - reflexivity.
  - intros offset n. reflexivity.
  - lia.
  - split; assumption.
Defined.

(** ** Commands that leave the books alone *)

Lemma no_reply_app (a b : list event) :
  no_reply a -> no_reply b -> no_reply (a ++ b).
Proof.
  unfold no_reply. intros Ha Hb. rewrite requests_app, forallb_app, Ha, Hb.
  reflexivity.
Qed.

Lemma kept_refl (s : State) : kept s s.
Proof.
  split; [apply same_books_refl|]. exists []. split; [|reflexivity].
  symmetry. apply app_nil_r.
Qed.

Lemma kept_trans (s1 s2 s3 : State) : kept s1 s2 -> kept s2 s3 -> kept s1 s3.
Proof.
  intros (B1 & a & T1 & N1) (B2 & b & T2 & N2).
  split; [eapply same_books_trans; eassumption|].
  exists (a ++ b)%list. split; [|apply no_reply_app; assumption].
  rewrite T2, T1, app_assoc. reflexivity.
Qed.

Lemma kept_emit (s : State) (e : event) :
  no_reply [e] -> kept s (emit e s).
Proof.
  intros H. split; [repeat split|]. exists [e]. split; [reflexivity|exact H].
Qed.

Lemma quiet_ret {A} (a : A) : quiet (ret a).
Proof. intros s. apply kept_refl. Qed.

Lemma quiet_raise {A} (e : exn) : quiet (@raise A e).
Proof. intros s. apply kept_refl. Qed.

Lemma quiet_lift {A} (o : outcome A) : quiet (lift o).
Proof. destruct o; [apply quiet_ret | apply quiet_raise]. Qed.

Lemma quiet_log_info (msg : string) : quiet (log_info msg).
Proof. intros s. apply kept_emit. reflexivity. Qed.

Lemma quiet_sleep (n : Z) : quiet (sleep n).
Proof.
  intros s. cbn. split; [repeat split|].
  exists [EvSleep n]. split; reflexivity.
Qed.

Lemma quiet_net_call {A} (r : request) (answer : nat -> outcome A) :
  is_reply r = false -> quiet (net_call r answer).
Proof.
  intros Hr s. unfold net_call.
  assert (K : kept s {| submission_ids := submission_ids s; db := db s;
                        disk := disk s; clock := clock s; calls := S (calls s);
                        trace := trace s ++ [EvCall r] |}).
  { split; [repeat split|]. exists [EvCall r]. split; [reflexivity|].
    unfold no_reply. cbn. rewrite Hr. reflexivity. }
  destruct (answer (calls s)); exact K.
Qed.

Lemma quiet_bind {A B} (c : M A) (k : A -> M B) :
  quiet c -> (forall a, quiet (k a)) -> quiet (bind c k).
Proof.
  intros Hc Hk s. unfold bind. specialize (Hc s).
  destruct (c s) as [a s1 | e s1 |]; [|exact Hc|exact I].
  specialize (Hk a s1).
  destruct (k a s1) as [b s2 | e s2 |]; [| |exact I];
    eapply kept_trans; eassumption.
Qed.

Lemma quiet_try {A} (c : M A) : quiet c -> quiet (try_ c).
Proof.
  intros Hc s. unfold try_. specialize (Hc s).
  destruct (c s); exact Hc.
Qed.

Lemma quiet_retry_loop {A} (call : M A) (what : string) :
  quiet call ->
  forall fuel sleep_time attempt_count,
    quiet (retry_loop fuel call what sleep_time attempt_count).
Proof.
  intros Hc. induction fuel as [|fuel IH]; intros st ac.
  - intros s. exact I.
  - cbn [retry_loop].
    apply quiet_bind; [apply quiet_log_info|]. intros _.
    apply quiet_bind; [apply quiet_sleep|]. intros _.
    apply quiet_bind; [apply quiet_try; exact Hc|]. intros [v | e].
    + apply quiet_ret.
    + apply quiet_bind; [apply quiet_log_info|]. intros _. apply IH.
Qed.

Lemma quiet_with_retry {A} (fuel : nat) (call : M A) (failed what : string) :
  quiet call -> quiet (with_retry fuel call failed what).
Proof.
  intros Hc. unfold with_retry.
  apply quiet_bind; [apply quiet_try; exact Hc|]. intros [v | e].
  - apply quiet_ret.
  - apply quiet_bind; [apply quiet_log_info|]. intros _.
    apply quiet_retry_loop. exact Hc.
Qed.

Lemma quiet_fetch_playlist (fuel : nat) (w : World) (playlist_id : string) :
  quiet (fetch_playlist fuel w playlist_id).
Proof.
  unfold fetch_playlist.
  assert (Hc : quiet (net_call (ReqPlaylist playlist_id)
                               (spotify_playlist w playlist_id)))
    by (apply quiet_net_call; reflexivity).
  apply quiet_bind; [apply quiet_try; exact Hc|]. intros [v | e].
  - apply quiet_ret.
  - destruct e; try apply quiet_ret;
      (apply quiet_bind; [apply quiet_log_info|]; intros _;
       apply quiet_bind; [apply quiet_retry_loop; exact Hc|]; intros p;
       apply quiet_ret).
Qed.

Lemma quiet_fetch_all_tracks (w : World) (playlist_id : string) :
  forall fuel items total offset,
    quiet (fetch_all_tracks fuel w playlist_id items total offset).
Proof.
  induction fuel as [|fuel IH]; intros items total offset;
    rewrite fetch_all_tracks_eq;
    destruct (Z.of_nat (length items) <? total); try apply quiet_ret.
  - intros s. exact I.
  - apply quiet_bind.
    + apply quiet_with_retry. apply quiet_net_call. reflexivity.
    + intros tracks. apply quiet_bind; [apply quiet_sleep|]. intros _. apply IH.
Qed.

(** ** A wrapped call that returned was made *)

Lemma retry_loop_done {A} (r : request) (answer : nat -> outcome A) (what : string) :
  forall fuel sleep_time attempt_count s v s',
    retry_loop fuel (net_call r answer) what sleep_time attempt_count s = Done v s' ->
    same_books s s' /\
    exists evs, trace s' = (trace s ++ evs)%list /\ In r (requests evs).
Proof.
  induction fuel as [|fuel IH]; intros st ac s v s' H; [discriminate|].
  cbn [retry_loop] in H. unfold bind, log_info, sleep, try_, net_call, emit in H.
  cbn in H. destruct (answer (calls s)) as [v0 | e] eqn:E; cbn in H.
  - inversion H; subst. split; [repeat split|].
    eexists. split; [rewrite <- !app_assoc; reflexivity|].
    cbn. left. reflexivity.
  - apply IH in H. destruct H as (B & evs & T & Hin). split; [exact B|].
    cbn [trace] in T. rewrite <- !app_assoc in T.
    match type of T with _ = (_ ++ ?l)%list => exists l end.
    split; [exact T|].
    rewrite !requests_app. repeat (apply in_or_app; right). exact Hin.
Qed.

Lemma with_retry_done {A} (r : request) (answer : nat -> outcome A)
    (failed what : string) (fuel : nat) (s : State) (v : A) (s' : State) :
  with_retry fuel (net_call r answer) failed what s = Done v s' ->
  same_books s s' /\
  exists evs, trace s' = (trace s ++ evs)%list /\ In r (requests evs).
Proof.
  unfold with_retry, bind, try_, net_call, log_info, emit.
  destruct (answer (calls s)) as [v0 | e] eqn:E; cbn.
  - intros H. inversion H; subst. split; [repeat split|].
    exists [EvCall r]. split; [reflexivity | left; reflexivity].
  - intros H. apply retry_loop_done in H. destruct H as (B & evs & T & Hin).
    split; [exact B|]. cbn [trace] in T. rewrite <- !app_assoc in T.
    match type of T with _ = (_ ++ ?l)%list => exists l end.
    split; [exact T|].
    rewrite !requests_app. repeat (apply in_or_app; right). exact Hin.
Qed.

(** ** Every way through the loop body *)

Lemma outcome_ok_kept (id : string) (s s1 : State) (h : handled) (s' : State) :
  kept s s1 -> outcome_ok id s1 h s' -> outcome_ok id s h s'.
Proof.
  intros ((I1 & D1 & K1) & evs1 & T1 & N1) H.
  destruct h; cbn [outcome_ok] in *; try exact H;
    try (destruct H as (I2 & D2 & K2 & evs2 & T2 & N2);
         split; [congruence|]; split; [congruence|]; split; [congruence|];
         exists (evs1 ++ evs2)%list; split;
         [rewrite T2, T1, app_assoc; reflexivity | apply no_reply_app; assumption]).
  destruct H as (rows & evs2 & text & R & I2 & D2 & K2 & T2 & Hin).
  exists rows, (evs1 ++ evs2)%list, text.
  unfold store_rows in *. rewrite <- D1, <- I1.
  split; [exact R|]. split; [exact I2|]. split; [exact D2|]. split; [exact K2|].
  split; [rewrite T2, T1, app_assoc; reflexivity|].
  rewrite requests_app. apply in_or_app. right. exact Hin.
Qed.

Lemma stage_bind {A} (id : string) (c : M A) (k : A -> M handled) :
  quiet c -> (forall a, stage id (k a)) -> stage id (bind c k).
Proof.
  intros Hc Hk s. unfold bind. specialize (Hc s).
  destruct (c s) as [a s1 | e s1 |]; [|exact I|exact I].
  specialize (Hk a s1).
  destruct (k a s1) as [h s2 | e s2 |]; [|exact I|exact I].
  eapply outcome_ok_kept; eassumption.
Qed.

Lemma stage_append (id : string) (h : handled) :
  skip_tag h = true -> stage id (append_id id ;; ret h).
Proof.
  intros Hh s. cbn.
  destruct h; try discriminate; cbn;
    (split; [reflexivity|]; split; [reflexivity|]; split; [reflexivity|];
     exists []; split; [symmetry; apply app_nil_r | reflexivity]).
Qed.

Lemma stage_reply (fuel : nat) (w : World) (sub : Submission) (response : string) :
  stage (sub_id sub)
    (with_retry fuel
       (net_call (ReqReply (sub_id sub) response)
                 (submission_reply w (sub_id sub) response))
       "Failed to submit response" "submission" ;;
     record_reply sub).
Proof.
  intros s. unfold bind.
  destruct (with_retry _ _ _ _ s) as [[] s1 | e s1 |] eqn:E; [|exact I|exact I].
  apply with_retry_done in E. destruct E as ((I1 & D1 & K1) & evs & T & Hin).
  destruct (table_of "submissions" (db s1)) as [rows|] eqn:Ht.
  - rewrite (record_reply_done sub s1 rows Ht). cbn [outcome_ok].
    exists rows, (evs ++ [EvSleep 1])%list, response. cbn.
    unfold store_rows. rewrite <- D1, <- I1.
    replace (clock s1 + 1 - 1) with (clock s1) by lia.
    split; [exact Ht|]. split; [reflexivity|].
    split; [reflexivity|]. split; [reflexivity|].
    split; [rewrite T, app_assoc; reflexivity|].
    rewrite requests_app. apply in_or_app. left. exact Hin.
  - destruct (record_reply_no_table sub s1 Ht) as [s2 H2]. rewrite H2. exact I.
Qed.

Lemma stage_summarise_and_reply (fuel : nat) (w : World) (sub : Submission)
    (playlist_id : string) (playlist : Playlist) :
  stage (sub_id sub) (summarise_and_reply fuel w sub playlist_id playlist).
Proof.
  unfold summarise_and_reply.
  apply stage_bind; [apply quiet_fetch_all_tracks|]. intros items.
  apply stage_bind; [apply quiet_lift|]. intros response.
  apply stage_reply.
Qed.

Lemma stage_fetch_and_reply (fuel : nat) (w : World) (sub : Submission)
    (playlist_id : string) :
  stage (sub_id sub) (fetch_and_reply fuel w sub playlist_id).
Proof.
  unfold fetch_and_reply.
  apply stage_bind; [apply quiet_log_info|]. intros _.
  apply stage_bind; [apply quiet_fetch_playlist|]. intros [playlist|].
  - apply stage_summarise_and_reply.
  - apply stage_append. reflexivity.
Qed.

Lemma stage_handle_link (fuel : nat) (w : World) (sub : Submission) :
  stage (sub_id sub) (handle_link fuel w sub).
Proof.
  unfold handle_link.
  apply stage_bind; [apply quiet_lift|]. intros [| |playlist_id].
  - apply stage_bind; [apply quiet_log_info|]. intros _.
    apply stage_append. reflexivity.
  - apply stage_bind; [apply quiet_log_info|]. intros _.
    apply stage_append. reflexivity.
  - apply stage_fetch_and_reply.
Qed.

Lemma process_submission_outcome (fuel : nat) (w : World) (sub : Submission)
    (s : State) (h : handled) (s' : State) :
  process_submission fuel w sub s = Done h s' ->
  (cached (sub_id sub) s /\ h = AlreadyCached /\ s' = s) \/
  (~ cached (sub_id sub) s /\ outcome_ok (sub_id sub) s h s' /\
   (h = Replied -> ~ stale sub s /\ not_stored (sub_id sub) (db s))).
Proof.
  intros H.
  destruct (in_dec string_dec (sub_id sub) (submission_ids s)) as [Hc | Hc].
  { left. rewrite gate_cached in H by exact Hc. inversion H; subst. auto. }
  right. split; [exact Hc|].
  destruct (Z_lt_dec (sub_created_utc sub) (clock s - 900)) as [Hs | Hs].
  { rewrite gate_stale in H by assumption. inversion H; subst.
    split; [|discriminate]. cbn.
    split; [reflexivity|]. split; [reflexivity|]. split; [reflexivity|].
    exists []. split; [symmetry; apply app_nil_r | reflexivity]. }
  rewrite gate_select in H by assumption.
  unfold bind at 1 in H. unfold db_select in H.
  destruct (table_of "submissions" (db s)) as [rows|] eqn:Ht; [|discriminate].
  destruct (existsb (fun r => String.eqb (fst r) (sub_id sub)) rows) eqn:He.
  - pose proof (stage_append (sub_id sub) InStore eq_refl s) as Hst.
    rewrite H in Hst. inversion H; subst. split; [exact Hst|discriminate].
  - pose proof (stage_handle_link fuel w sub s) as Hst. rewrite H in Hst.
    split; [exact Hst|]. intros _. split; [exact Hs|].
    exists rows. split; [exact Ht|].
    intros Hin. apply existsb_row_In in Hin. congruence.
Qed.

(** ** The cache after an eviction *)

Lemma evict_skipn (l : list string) : evict l = skipn (length l - 125) l.
Proof.
  induction l as [|x l IH]; [reflexivity|].
  cbn [evict]. destruct (Nat.ltb_spec 125 (length (x :: l))) as [Hlt | Hge].
  - rewrite IH. cbn [length] in *.
    replace (S (length l) - 125)%nat with (S (length l - 125)) by lia.
    reflexivity.
  - replace (length (x :: l) - 125)%nat with O by lia. reflexivity.
Qed.

Lemma evict_length (l : list string) : (length (evict l) <= 125)%nat.
Proof. rewrite evict_skipn, length_skipn. lia. Qed.

Lemma evict_snoc (l : list string) (x : string) :
  evict (l ++ [x]) = (skipn (length l + 1 - 125) l ++ [x])%list.
Proof.
  rewrite evict_skipn, length_app. cbn [length].
  rewrite skipn_app.
  replace (length l + 1 - 125 - length l)%nat with O by lia. reflexivity.
Qed.

Lemma table_of_set_table (name : string) (t : Table) (d : Database) :
  table_of name d <> None -> table_of name (set_table name t d) = Some t.
Proof.
  induction d as [|[n t0] d IH]; cbn; [congruence|].
  destruct (String.eqb n name) eqn:E; cbn; rewrite E; [reflexivity | exact IH].
Qed.

Lemma count_occ_skipn_zero (l : list string) (x : string) (k : nat) :
  ~ In x l -> count_occ string_dec (skipn k l) x = O.
Proof.
  intros H. apply count_occ_not_In. intros Hin. apply H.
  rewrite <- (firstn_skipn k l). apply in_or_app. right. exact Hin.
Qed.

(** ** Bookkeeping *)

(** C1 (as the code has it).  A submission that was not in the cache and
    whose loop body runs to its end is appended to the cache exactly once.
    Only when a reply was sent is a row with its identifier and the time of
    the insertion added to the store and committed, and then the store held
    no row for it before; on every other outcome (stale, already stored,
    foreign URL, unknown path, playlist not found) the store is left as it
    was and no reply goes out. *)
Theorem handled_bookkeeping :
  forall (fuel : nat) (w : World) (sub : Submission) (s : State)
         (h : handled) (s' : State),
    process_submission fuel w sub s = Done h s' ->
    ~ cached (sub_id sub) s ->
    count_occ string_dec (submission_ids s') (sub_id sub) = 1%nat /\
    (exists k, submission_ids s' = (skipn k (submission_ids s) ++ [sub_id sub])%list) /\
    (h = Replied ->
       exists rows text evs,
         store_rows (db s) rows /\
         ~ In (sub_id sub) (map fst rows) /\
         store_rows (db s') (rows ++ [(sub_id sub, clock s' - 1)])%list /\
         disk s' = db s' /\
         trace s' = (trace s ++ evs)%list /\
         In (ReqReply (sub_id sub) text) (requests evs)) /\
    (h <> Replied ->
       db s' = db s /\ disk s' = disk s /\
       exists evs, trace s' = (trace s ++ evs)%list /\ no_reply evs).
Proof.
  intros fuel w sub s h s' H Hc.
  destruct (process_submission_outcome fuel w sub s h s' H)
    as [(Hc' & _) | (_ & Hok & Hrep)]; [contradiction|].
  assert (Hids : exists k,
             submission_ids s' = (skipn k (submission_ids s) ++ [sub_id sub])%list).
  { destruct h; cbn [outcome_ok] in Hok; try contradiction;
      try (exists O; cbn [skipn]; apply Hok).
    destruct Hok as (rows & evs & text & _ & I2 & _).
    rewrite evict_snoc in I2. eexists. exact I2. }
  split; [|split; [exact Hids|split]].
  - destruct Hids as [k ->]. rewrite count_occ_app.
    rewrite count_occ_skipn_zero by exact Hc. cbn.
    destruct (string_dec (sub_id sub) (sub_id sub)); [reflexivity|contradiction].
  - intros ->. destruct (Hrep eq_refl) as (_ & rows' & Hr' & Hnin).
    cbn [outcome_ok] in Hok.
    destruct Hok as (rows & evs & text & Hr & _ & D2 & K2 & T2 & Hin).
    unfold store_rows in *. rewrite Hr in Hr'. injection Hr' as <-.
    exists rows, text, evs.
    split; [exact Hr|]. split; [exact Hnin|].
    split; [rewrite D2; apply table_of_set_table; congruence|].
    split; [exact K2|]. split; [exact T2|exact Hin].
  - intros Hne. destruct h; cbn [outcome_ok] in Hok; try contradiction;
      try (destruct Hok as (_ & D & K & E); split; [exact D|split; [exact K|exact E]]).
Qed.

Lemma handled_bookkeeping_witness :
  exists s',
    process_submission 1 (calm_world [sample_submission] (sample_playlist [sample_item 5]))
      sample_submission (startup (Some empty_store) 1100) = Done Replied s' /\
    count_occ string_dec (submission_ids s') "abc" = 1%nat /\
    store_rows (db s') [("abc", 1100)] /\
    disk s' = db s'.
Proof.
  eexists. split; [vm_compute; reflexivity|].
  pose proof (handled_bookkeeping 1
                (calm_world [sample_submission] (sample_playlist [sample_item 5]))
                sample_submission (startup (Some empty_store) 1100) Replied _
                ltac:(vm_compute; reflexivity) ltac:(intros []))
    as (Hcount & _ & Hrep & _).
  split; [exact Hcount|].
  destruct (Hrep eq_refl) as (rows & text & evs & Hr & _ & Hr' & Hd & _).
  injection Hr as <-. split; [exact Hr' | exact Hd].
Defined.

(** C1 as stated fails: a submission that is skipped (here: too old, a
    foreign URL, a path without a playlist, a deleted playlist) goes into the
    cache and not into the store. *)
Lemma skipped_submission_not_stored :
  (exists s',
     process_submission 1 not_found_world sample_submission
       (startup (Some empty_store) 5000) = Done Stale s' /\
     In "abc" (submission_ids s') /\ disk s' = empty_store /\ db s' = empty_store) /\
  (exists s',
     process_submission 1 not_found_world video_submission
       (startup (Some empty_store) 1100) = Done InvalidUrl s' /\
     In "ghi" (submission_ids s') /\ disk s' = empty_store /\ db s' = empty_store) /\
  (exists s',
     process_submission 1 not_found_world album_submission
       (startup (Some empty_store) 1100) = Done NoPlaylistId s' /\
     In "def" (submission_ids s') /\ disk s' = empty_store /\ db s' = empty_store) /\
  (exists s',
     process_submission 1 not_found_world sample_submission
       (startup (Some empty_store) 1100) = Done PlaylistNotFound s' /\
     In "abc" (submission_ids s') /\ disk s' = empty_store /\ db s' = empty_store) /\
  (forall id, ~ stored id empty_store).
Proof.
  repeat split;
    try (eexists; split; [vm_compute; reflexivity|];
         split; [left; reflexivity | split; reflexivity]).
  intros id (rows & Hr & Hin). injection Hr as <-. destruct Hin.
Qed.

(** C2 (as the code has it).  After a reply the cache is the last 125
    entries of the old cache followed by the new identifier: at most 125
    long, the oldest entries gone first, and with exactly 125 before, the
    first one is dropped.  A skipped submission is appended and nothing is
    evicted, so between replies the cache can be longer than 125. *)
Theorem cache_after_each_outcome :
  forall (fuel : nat) (w : World) (sub : Submission) (s : State)
         (h : handled) (s' : State),
    process_submission fuel w sub s = Done h s' ->
    (h = Replied ->
       submission_ids s'
       = (skipn (length (submission_ids s) + 1 - 125) (submission_ids s)
          ++ [sub_id sub])%list /\
       (length (submission_ids s') <= 125)%nat /\
       (length (submission_ids s) = 125%nat ->
          submission_ids s' = (tl (submission_ids s) ++ [sub_id sub])%list) /\
       (length (submission_ids s) < 125 ->
          submission_ids s' = (submission_ids s ++ [sub_id sub])%list)%nat) /\
    (skip_tag h = true ->
       submission_ids s' = (submission_ids s ++ [sub_id sub])%list /\
       length (submission_ids s') = S (length (submission_ids s))) /\
    (h = AlreadyCached -> submission_ids s' = submission_ids s).
Proof.
  intros fuel w sub s h s' H.
  destruct (process_submission_outcome fuel w sub s h s' H)
    as [(_ & -> & ->) | (_ & Hok & _)].
  { split; [discriminate|]. split; [discriminate|]. reflexivity. }
  split; [|split].
  - intros ->. cbn [outcome_ok] in Hok.
    destruct Hok as (rows & evs & text & _ & I2 & _).
    split; [rewrite I2; apply evict_snoc|].
    split; [rewrite I2; apply evict_length|].
    rewrite I2, evict_snoc. split; intros Hl.
    + rewrite Hl. destruct (submission_ids s); reflexivity.
    + replace (length (submission_ids s) + 1 - 125)%nat with O by lia. reflexivity.
  - intros Hh. destruct h; try discriminate; cbn [outcome_ok] in Hok;
      destruct Hok as (I2 & _); (split; [exact I2|]);
      rewrite I2, length_app; cbn [length]; lia.
  - intros ->. contradiction.
Qed.

Lemma cache_after_each_outcome_witness :
  exists s',
    process_submission 1 (calm_world [sample_submission] (sample_playlist [sample_item 5]))
      sample_submission full_cache_state = Done Replied s' /\
    length (submission_ids s') = 125%nat /\
    submission_ids s' = (tl (submission_ids full_cache_state) ++ ["abc"])%list.
Proof.
  eexists. split; [vm_compute; reflexivity|].
  pose proof (cache_after_each_outcome 1
                (calm_world [sample_submission] (sample_playlist [sample_item 5]))
                sample_submission full_cache_state Replied _
                ltac:(vm_compute; reflexivity))
    as (Hrep & _).
  destruct (Hrep eq_refl) as (_ & _ & Hfull & _).
  split; [reflexivity|]. apply Hfull. reflexivity.
Defined.

(** C2 as stated fails: two polls that each show a hundred new links to a
    video site leave 200 identifiers in the cache. *)
Lemma cache_grows_past_125 :
  exists hs s',
    main 2 0 busy_world (Some empty_store) 1100 = Done hs s' /\
    hs = repeat InvalidUrl 200 /\
    submission_ids s' = map (fun i => str_of_Z (Z.of_nat i)) (seq 0 200) /\
    length (submission_ids s') = 200%nat.
Proof.
  eexists. eexists. split; [vm_compute; reflexivity|].
  split; [|split]; vm_compute; reflexivity.
Qed.

(** * Further properties of the code *)

(** ** The ranking (lines 198-202) *)

Lemma ranked_before_trans (a b c : Item) :
  ranked_before a b -> ranked_before b c -> ranked_before a c.
Proof. unfold ranked_before. lia. Qed.

Lemma ranked_tracks_strongly_sorted (items : list Item) :
  StronglySorted ranked_before (ranked_tracks items).
Proof.
  apply Sorted_StronglySorted.
  - intros a b c. apply ranked_before_trans.
  - apply ranked_tracks_sorted.
Qed.

Lemma strongly_sorted_across {A} (R : A -> A -> Prop) (l1 l2 : list A) :
  StronglySorted R (l1 ++ l2) ->
  forall a b, In a l1 -> In b l2 -> R a b.
Proof.
  induction l1 as [|x l1 IH]; intros Hs a b Ha Hb; [destruct Ha|].
  cbn [app] in Hs. inversion Hs as [|? ? Hs' Hall]; subst.
  destruct Ha as [-> | Ha].
  - rewrite Forall_forall in Hall. apply Hall. apply in_or_app. right. exact Hb.
  - apply IH; assumption.
Qed.

(** X1. The ranking holds exactly the items of the playlist, in descending
    order of popularity with a removed track counted as 0, and whatever is
    left out of the first five is no more popular than anything in them. *)
Theorem ranking_sorted_permutation :
  forall items : list Item,
    Permutation (ranked_tracks items) items /\
    StronglySorted ranked_before (ranked_tracks items) /\
    length (firstn 5 (ranked_tracks items)) = Nat.min 5 (length items) /\
    (forall a b,
       In a (firstn 5 (ranked_tracks items)) ->
       In b (skipn 5 (ranked_tracks items)) ->
       popularity_key b <= popularity_key a).
Proof.
  intros items. split; [apply ranked_tracks_perm|].
  split; [apply ranked_tracks_strongly_sorted|]. split.
  - rewrite length_firstn.
    rewrite (Permutation_length (ranked_tracks_perm items)). reflexivity.
  - intros a b Ha Hb.
    apply (strongly_sorted_across ranked_before
             (firstn 5 (ranked_tracks items)) (skipn 5 (ranked_tracks items)));
      [|assumption|assumption].
    rewrite firstn_skipn. apply ranked_tracks_strongly_sorted.
Qed.

Lemma ranking_sorted_permutation_witness :
  popularity_key removed_item <= popularity_key (sample_item 30).
Proof.
  apply (proj2 (proj2 (proj2 (ranking_sorted_permutation
           (removed_item :: map sample_item [10; 90; 50; 0; 70; 30; 60]))))).
  - vm_compute. right. right. right. right. left. reflexivity.
  - vm_compute. right. left. reflexivity.
Defined.

Lemma insert_ranked_filter (k : Z) (x : Item) (l : list Item) :
  filter (has_key k) (insert_ranked x l)
  = if has_key k x then x :: filter (has_key k) l else filter (has_key k) l.
Proof.
  induction l as [|y l IH]; cbn [insert_ranked]; [reflexivity|].
  destruct (Z.leb_spec (popularity_key y) (popularity_key x)) as [Hle | Hgt].
  - reflexivity.
  - cbn [filter]. rewrite IH. unfold has_key.
    destruct (Z.eqb_spec (popularity_key x) k) as [Hx | Hx];
      destruct (Z.eqb_spec (popularity_key y) k) as [Hy | Hy];
      try reflexivity.
    lia.
Qed.

(** X2. The ranking is stable: the items of any one popularity come out in
    the order in which the playlist has them. *)
Theorem ranking_stable :
  forall (items : list Item) (k : Z),
    filter (has_key k) (ranked_tracks items) = filter (has_key k) items.
Proof.
  intros items k. induction items as [|x items IH]; [reflexivity|].
  cbn [ranked_tracks fold_right]. fold (ranked_tracks items).
  rewrite insert_ranked_filter, IH. reflexivity.
Qed.

(** ** The duration (lines 190-192) *)

Lemma present_app (a b : list Item) : present (a ++ b) = (present a ++ present b)%list.
Proof. apply flat_map_app. Qed.

Lemma total_ms_app (a b : list Item) : total_ms (a ++ b) = total_ms a + total_ms b.
Proof. unfold total_ms. rewrite present_app, map_app. apply sum_Z_app. Qed.

Lemma total_ms_cons (it : Item) (items : list Item) :
  total_ms (it :: items)
  = match track it with Some t => duration_ms t | None => 0 end + total_ms items.
Proof.
  change (it :: items) with ([it] ++ items)%list. rewrite total_ms_app.
  f_equal. unfold total_ms, present. cbn. destruct (track it); cbn; lia.
Qed.

Lemma total_ms_perm (a b : list Item) : Permutation a b -> total_ms a = total_ms b.
Proof.
  induction 1 as [| x l l' _ IH | x y l | l l' l'' _ IH1 _ IH2].
  - reflexivity.
  - rewrite !total_ms_cons, IH. reflexivity.
  - rewrite !total_ms_cons. lia.
  - congruence.
Qed.

Lemma total_ms_filter (items : list Item) :
  total_ms (filter has_track items) = total_ms items.
Proof.
  induction items as [|it items IH]; [reflexivity|].
  cbn [filter]. unfold has_track at 1.
  destruct (track it) as [t|] eqn:E.
  - rewrite !total_ms_cons, E, IH. reflexivity.
  - rewrite total_ms_cons, E, IH. lia.
Qed.

(** X3. The total duration counts the tracks that are there and nothing
    else: removed tracks add nothing, the order of the items does not matter
    (so ranking does not change it), the total of two pages is the sum of
    their totals, and with no negative duration it is not negative. *)
Theorem total_ms_counts_present_tracks :
  forall a b : list Item,
    total_ms (filter has_track a) = total_ms a /\
    total_ms (a ++ b) = total_ms a + total_ms b /\
    total_ms (ranked_tracks a) = total_ms a /\
    (Permutation a b -> total_ms a = total_ms b) /\
    ((forall t, In t (present a) -> 0 <= duration_ms t) -> 0 <= total_ms a).
Proof.
  intros a b.
  split; [apply total_ms_filter|]. split; [apply total_ms_app|].
  split; [apply total_ms_perm, ranked_tracks_perm|].
  split; [apply total_ms_perm|].
  unfold total_ms. induction (present a) as [|t l IH]; intros H; cbn; [lia|].
  fold (sum_Z (map duration_ms l)).
  assert (0 <= duration_ms t) by (apply H; left; reflexivity).
  assert (0 <= sum_Z (map duration_ms l)) by (apply IH; intros; apply H; right; assumption).
  lia.
Qed.

Lemma total_ms_counts_present_tracks_witness :
  total_ms [sample_item 1; removed_item] = total_ms [removed_item; sample_item 1] /\
  0 <= total_ms [sample_item 1; removed_item].
Proof.
  pose proof (total_ms_counts_present_tracks
                [sample_item 1; removed_item] [removed_item; sample_item 1])
    as (_ & _ & _ & Hperm & Hpos).
  split.
  - apply Hperm. apply perm_swap.
  - apply Hpos. intros t [<- | []]. cbn. lia.
Defined.

(** ** Thousands separators (line 211) *)

Lemma commas_short (d : string) : (String.length d <= 3)%nat -> commas d = d.
Proof.
  induction d as [|c t IH]; intros H; [reflexivity|].
  cbn [commas String.length] in *.
  rewrite IH by lia.
  destruct t as [|c1 [|c2 [|c3 t]]]; cbn in *; try reflexivity. lia.
Qed.

Lemma length_append (a b : string) :
  String.length (a ++ b) = (String.length a + String.length b)%nat.
Proof. induction a as [|c a IH]; cbn; [reflexivity | rewrite IH; reflexivity]. Qed.

Lemma commas_last_group (a b : string) :
  a <> "" -> String.length b = 3%nat -> commas (a ++ b) = commas a ++ "," ++ b.
Proof.
  intros Ha Hb. induction a as [|c a IH]; [congruence|].
  cbn [append commas]. rewrite length_append, Hb.
  replace ((String.length a + 3) mod 3)%nat with (String.length a mod 3)%nat
    by (rewrite <- (Nat.Div0.add_mod_idemp_r _ 3 3); cbn; rewrite Nat.add_0_r;
        reflexivity).
  destruct a as [|c' a].
  - cbn [append String.length Nat.add]. cbn [Nat.ltb Nat.leb Nat.modulo].
    rewrite (commas_short b) by lia. reflexivity.
  - rewrite IH by discriminate.
    replace (0 <? String.length (String c' a) + 3)%nat with true
      by (symmetry; apply Nat.ltb_lt; lia).
    cbn [String.length]. cbn [Nat.ltb Nat.leb andb].
    destruct (S (String.length a) mod 3 =? 0)%nat; reflexivity.
Qed.

Lemma strip_commas_commas (d : string) : strip_commas (commas d) = strip_commas d.
Proof.
  induction d as [|c t IH]; [reflexivity|].
  cbn [commas strip_commas].
  destruct ((0 <? String.length t)%nat && (String.length t mod 3 =? 0)%nat);
    cbn [append strip_commas]; rewrite ?IH;
    change (Ascii.eqb "," ",") with true; cbn iota; rewrite ?IH; reflexivity.
Qed.

Lemma strip_commas_digits (d : Decimal.uint) :
  strip_commas (NilEmpty.string_of_uint d) = NilEmpty.string_of_uint d.
Proof. induction d; cbn; rewrite ?IHd; reflexivity. Qed.

Lemma strip_commas_number (d : Decimal.uint) :
  strip_commas (NilZero.string_of_uint d) = NilZero.string_of_uint d.
Proof. destruct d; try reflexivity; apply strip_commas_digits. Qed.

(** X4. The followers count is the plain decimal number with commas put in:
    taking the commas out gives the number back, a number of up to three
    digits has none, and a longer one is its leading digits, grouped, then a
    comma and its last three digits. *)
Theorem grouped_number_is_the_number_with_commas :
  (forall z, strip_commas (str_of_Z_grouped z) = str_of_Z z) /\
  (forall d, (String.length d <= 3)%nat -> commas d = d) /\
  (forall a b, a <> "" -> String.length b = 3%nat ->
               commas (a ++ b) = commas a ++ "," ++ b).
Proof.
  split; [|split; [exact commas_short | exact commas_last_group]].
  intros z. unfold str_of_Z_grouped, str_of_Z.
  destruct z as [|p|p]; cbn [Z.ltb Z.compare Z.opp Z.to_int NilZero.string_of_int].
  - reflexivity.
  - rewrite strip_commas_commas. apply strip_commas_number.
  - cbn [append strip_commas]. change (Ascii.eqb "-" ",") with false. cbn iota.
    rewrite strip_commas_commas, strip_commas_number. reflexivity.
Qed.

Lemma grouped_number_is_the_number_with_commas_witness :
  commas "999" = "999" /\ commas ("1234" ++ "567") = commas "1234" ++ "," ++ "567".
Proof.
  split.
  - apply (proj1 (proj2 grouped_number_is_the_number_with_commas)). cbn. lia.
  - apply (proj2 (proj2 grouped_number_is_the_number_with_commas));
      [discriminate | reflexivity].
Defined.

(** ** Eviction (lines 261-262) *)

(** X5. The eviction loop leaves the last 125 entries: what remains is the
    end of the list, as long as the list or 125 long, whichever is less;
    running it again changes nothing, and a list of at most 125 entries is
    left as it is. *)
Theorem evict_keeps_last_125 :
  forall ids : list string,
    length (evict ids) = Nat.min (length ids) 125 /\
    ids = (firstn (length ids - 125) ids ++ evict ids)%list /\
    evict (evict ids) = evict ids /\
    ((length ids <= 125)%nat <-> evict ids = ids).
Proof.
  intros ids.
  assert (Hlen : length (evict ids) = Nat.min (length ids) 125)
    by (rewrite evict_skipn, length_skipn; lia).
  split; [exact Hlen|]. split; [rewrite evict_skipn; symmetry; apply firstn_skipn|].
  split.
  - rewrite (evict_skipn (evict ids)), Hlen.
    replace (Nat.min (length ids) 125 - 125)%nat with O by lia. reflexivity.
  - split.
    + intros H. rewrite evict_skipn.
      replace (length ids - 125)%nat with O by lia. reflexivity.
    + intros H. rewrite <- H, Hlen. lia.
Qed.

Lemma evict_keeps_last_125_witness :
  evict ["a"; "b"; "c"] = ["a"; "b"; "c"].
Proof.
  apply (proj1 (proj2 (proj2 (proj2 (evict_keeps_last_125 ["a"; "b"; "c"]))))).
  cbn. lia.
Defined.

(** ** When the reply can be rendered (lines 214-226) *)

Lemma top_tracks_returns (l : list Item) :
  forallb has_track l = true -> exists lines, top_tracks l = Returned lines.
Proof.
  induction l as [|it l IH]; intros H; cbn [top_tracks]; [eexists; reflexivity|].
  cbn [forallb] in H. apply andb_prop in H. destruct H as [Hit Hl].
  unfold has_track in Hit. destruct (track it); [|discriminate].
  destruct (IH Hl) as [lines ->]. eexists. reflexivity.
Qed.

Lemma top_tracks_fails (l : list Item) :
  forallb has_track l = false -> top_tracks l = Raised TypeError.
Proof.
  intros H. apply top_tracks_raises.
  induction l as [|it l IH]; [discriminate|].
  cbn [forallb] in H. unfold has_track at 1 in H.
  destruct (track it) eqn:E.
  - destruct (IH H) as (it' & Hin & Hnone). exists it'. split; [right|]; assumption.
  - exists it. split; [left; reflexivity | exact E].
Qed.

(** X6. Whether the reply text can be built depends only on the five best
    ranked items: if each of them has a track the text is built, and if one
    of them is a removed track building it raises [TypeError]; no other
    exception can come out of it. *)
Theorem reply_text_depends_on_top_five :
  forall (playlist : Playlist) (items : list Item) (url : string),
    (forallb has_track (firstn 5 (ranked_tracks items)) = true ->
       exists text, build_response playlist items url = Returned text) /\
    (forallb has_track (firstn 5 (ranked_tracks items)) = false ->
       build_response playlist items url = Raised TypeError) /\
    (forall e, build_response playlist items url = Raised e -> e = TypeError).
Proof.
  intros playlist items url. unfold build_response. split; [|split].
  - intros H. destruct (top_tracks_returns _ H) as [lines ->]. eexists. reflexivity.
  - intros H. rewrite (top_tracks_fails _ H). reflexivity.
  - intros e.
    destruct (forallb has_track (firstn 5 (ranked_tracks items))) eqn:H.
    + destruct (top_tracks_returns _ H) as [lines ->]. discriminate.
    + rewrite (top_tracks_fails _ H). congruence.
Qed.

Lemma reply_text_depends_on_top_five_witness :
  (exists text,
     build_response (sample_playlist [sample_item 5]) [sample_item 5] "u"
     = Returned text) /\
  build_response (sample_playlist [removed_item]) [removed_item] "u"
  = Raised TypeError.
Proof.
  split.
  - apply (proj1 (reply_text_depends_on_top_five
                    (sample_playlist [sample_item 5]) [sample_item 5] "u")).
    reflexivity.
  - apply (proj1 (proj2 (reply_text_depends_on_top_five
                    (sample_playlist [removed_item]) [removed_item] "u"))).
    reflexivity.
Defined.

Lemma filter_length_perm {A} (f : A -> bool) (a b : list A) :
  Permutation a b -> length (filter f a) = length (filter f b).
Proof.
  induction 1 as [| x l l' _ IH | x y l | l l' l'' _ IH1 _ IH2]; cbn [filter].
  - reflexivity.
  - destruct (f x); cbn [length]; congruence.
  - destruct (f x), (f y); reflexivity.
  - congruence.
Qed.

Lemma popular_has_track (it : Item) : popular it = true -> has_track it = true.
Proof.
  unfold popular, popularity_key, has_track.
  destruct (track it); [reflexivity | discriminate].
Qed.

Lemma sorted_popular_prefix (l : list Item) :
  StronglySorted ranked_before l ->
  forall n, (n <= length (filter popular l))%nat ->
            forallb has_track (firstn n l) = true.
Proof.
  induction 1 as [|y t Hs IH Hall]; intros n Hn.
  - destruct n; reflexivity.
  - destruct n as [|n]; [reflexivity|].
    cbn [firstn forallb filter] in *.
    destruct (popular y) eqn:Hy.
    + rewrite (popular_has_track y Hy). cbn [length] in Hn.
      apply IH. lia.
    + exfalso.
      assert (Hnone : filter popular t = []).
      { clear IH Hn Hs. induction t as [|z t IHt]; [reflexivity|].
        inversion Hall as [|? ? Hz Hall']; subst. cbn [filter].
        unfold popular, ranked_before in *.
        destruct (Z.ltb_spec 0 (popularity_key z)) as [Hpos | _];
          [|apply IHt; exact Hall'].
        destruct (Z.ltb_spec 0 (popularity_key y)); [discriminate | lia]. }
      rewrite Hnone in Hn. cbn in Hn. lia.
Qed.

(** X7. A playlist with at least five tracks of positive popularity always
    gets its reply text, however many removed tracks it has: they are ranked
    below the first five. *)
Theorem five_popular_tracks_always_render :
  forall (playlist : Playlist) (items : list Item) (url : string),
    (5 <= length (filter popular items))%nat ->
    exists text, build_response playlist items url = Returned text.
Proof.
  intros playlist items url H. unfold build_response.
  destruct (top_tracks_returns (firstn 5 (ranked_tracks items))) as [lines ->].
  - apply sorted_popular_prefix; [apply ranked_tracks_strongly_sorted|].
    rewrite (filter_length_perm popular _ _ (ranked_tracks_perm items)). exact H.
  - eexists. reflexivity.
Qed.

Lemma five_popular_tracks_always_render_witness :
  exists text,
    build_response (sample_playlist [])
      (removed_item :: map sample_item [1; 2; 3; 4; 5] ++ [removed_item]) "u"
    = Returned text.
Proof.
  apply five_popular_tracks_always_render. cbn. lia.
Defined.

(** ** More on the path (lines 113-122) *)

Lemma lower_ascii_idem (c : ascii) : lower_ascii (lower_ascii c) = lower_ascii c.
Proof. destruct c as [[|] [|] [|] [|] [|] [|] [|] [|]]; reflexivity. Qed.

Lemma lower_idem (s : string) : lower (lower s) = lower s.
Proof.
  induction s as [|c s IH]; [reflexivity|].
  cbn [lower]. rewrite lower_ascii_idem, IH. reflexivity.
Qed.

(** X8. The test of the first path segment does not depend on the case of
    its ASCII letters: writing the segment in lower case changes nothing in
    what the extractor returns. *)
Theorem extract_playlist_id_ignores_case :
  forall (host : option string) (seg0 : string) (rest : list string),
    extract_playlist_id host (lower seg0 :: rest)
    = extract_playlist_id host (seg0 :: rest).
Proof.
  intros host seg0 rest. unfold extract_playlist_id, index.
  cbn [nth_error]. rewrite lower_idem. reflexivity.
Qed.

(** X9. A link on [open.spotify.com] whose path is empty, or stops after
    [playlist], or has fewer than four segments after [user], ends the
    program with [IndexError]: the submission is not put in the cache, and
    the submissions after it in the batch are not looked at. *)
Theorem short_path_ends_the_batch :
  forall (fuel : nat) (w : World) (sub : Submission) (others : list Submission)
         (s : State),
    ~ cached (sub_id sub) s -> ~ stale sub s -> not_stored (sub_id sub) (db s) ->
    sub_host sub = Some "open.spotify.com" ->
    (sub_segments sub = [] \/
     (exists seg0, sub_segments sub = [seg0] /\ lower seg0 = "playlist") \/
     (exists seg0 rest, sub_segments sub = seg0 :: rest /\ lower seg0 = "user" /\
                        (length rest < 3)%nat)) ->
    process_submission fuel w sub s = Raise IndexError s /\
    for_each (sub :: others) (process_submission fuel w) s = Raise IndexError s.
Proof.
  intros fuel w sub others s Hc Hs Hn Hhost Hshape.
  assert (He : extract_playlist_id (sub_host sub) (sub_segments sub)
               = Raised IndexError).
  { rewrite Hhost. unfold extract_playlist_id. cbn [is_spotify_host].
    rewrite String.eqb_refl. cbn [negb].
    destruct Hshape as [-> | [(seg0 & -> & Hl) | (seg0 & rest & -> & Hl & Hlen)]].
    - reflexivity.
    - cbn. rewrite Hl. reflexivity.
    - cbn. rewrite Hl. cbn.
      destruct rest as [|a [|b [|c rest]]]; cbn in *; try reflexivity. lia. }
  assert (Hp : process_submission fuel w sub s = Raise IndexError s).
  { rewrite gate_new by assumption. unfold handle_link, bind. rewrite He.
    reflexivity. }
  split; [exact Hp|].
  cbn [for_each]. unfold bind. rewrite Hp. reflexivity.
Qed.

Lemma short_path_ends_the_batch_witness :
  process_submission 1 not_found_world short_path_submission
    (startup (Some empty_store) 1100)
  = Raise IndexError (startup (Some empty_store) 1100) /\
  for_each [short_path_submission; sample_submission]
    (process_submission 1 not_found_world) (startup (Some empty_store) 1100)
  = Raise IndexError (startup (Some empty_store) 1100).
Proof.
  apply short_path_ends_the_batch.
  - intros [].
  - unfold stale. cbn. lia.
  - exists []. split; [reflexivity | intros []].
  - reflexivity.
  - right. right. exists "User", ["bob"]. split; [reflexivity|].
    split; [reflexivity | cbn; lia].
Defined.

(** ** Seen once (lines 91-102) *)

Lemma processed_is_cached (fuel : nat) (w : World) (sub : Submission)
    (s : State) (h : handled) (s' : State) :
  process_submission fuel w sub s = Done h s' -> cached (sub_id sub) s'.
Proof.
  intros H.
  destruct (process_submission_outcome fuel w sub s h s' H)
    as [(Hc & _ & ->) | (_ & Hok & _)]; [exact Hc|].
  unfold cached.
  destruct h; cbn [outcome_ok] in Hok; try contradiction;
    try (destruct Hok as (-> & _); apply in_or_app; right; left; reflexivity).
  destruct Hok as (rows & evs & text & _ & -> & _).
  rewrite evict_snoc. apply in_or_app. right. left. reflexivity.
Qed.

(** X10. Once the loop body has run to its end for a submission, however it
    ended, a submission with the same identifier that comes next is passed
    over at the first test: nothing is fetched, sent, logged or written. *)
Theorem processed_then_passed_over :
  forall (fuel : nat) (w : World) (sub : Submission) (s : State)
         (h : handled) (s' : State),
    process_submission fuel w sub s = Done h s' ->
    forall (fuel' : nat) (w' : World) (sub' : Submission),
      sub_id sub' = sub_id sub ->
      process_submission fuel' w' sub' s' = Done AlreadyCached s'.
Proof.
  intros fuel w sub s h s' H fuel' w' sub' Hid.
  apply gate_cached. rewrite Hid. eapply processed_is_cached. exact H.
Qed.

Lemma processed_then_passed_over_witness :
  exists s',
    process_submission 1 not_found_world album_submission
      (startup (Some empty_store) 1100) = Done NoPlaylistId s' /\
    process_submission 0 busy_world album_submission s' = Done AlreadyCached s'.
Proof.
  eexists. split; [vm_compute; reflexivity|].
  apply (processed_then_passed_over 1 not_found_world album_submission
           (startup (Some empty_store) 1100) NoPlaylistId _
           ltac:(vm_compute; reflexivity)).
  reflexivity.
Defined.

Lemma replied_is_stored (fuel : nat) (w : World) (sub : Submission)
    (s s' : State) :
  process_submission fuel w sub s = Done Replied s' ->
  stored (sub_id sub) (disk s') /\ stored (sub_id sub) (db s').
Proof.
  intros H.
  destruct (process_submission_outcome fuel w sub s Replied s' H)
    as [(_ & Hh & _) | (_ & Hok & _)]; [discriminate|].
  cbn [outcome_ok] in Hok.
  destruct Hok as (rows & evs & text & Hr & _ & D2 & K2 & _).
  assert (Hst : stored (sub_id sub) (db s')).
  { exists (rows ++ [(sub_id sub, clock s' - 1)])%list. split.
    - unfold store_rows in *. rewrite D2. apply table_of_set_table. congruence.
    - rewrite map_app. apply in_or_app. right. left. reflexivity. }
  split; [rewrite K2|]; exact Hst.
Qed.

(** X11. A submission that was answered is not answered again after a
    restart: with what is on disk and an empty cache, a submission with the
    same identifier is passed over, as stale or as found in the store, and
    no service is called. *)
Theorem replied_then_restarted :
  forall (fuel : nat) (w : World) (sub : Submission) (s s' : State),
    process_submission fuel w sub s = Done Replied s' ->
    forall (fuel' : nat) (w' : World) (sub' : Submission) (now : Z),
      sub_id sub' = sub_id sub ->
      exists h,
        process_submission fuel' w' sub' (startup (Some (disk s')) now)
        = Done h (with_id (sub_id sub') (startup (Some (disk s')) now)) /\
        (h = Stale \/ h = InStore).
Proof.
  intros fuel w sub s s' H fuel' w' sub' now Hid.
  destruct (replied_is_stored fuel w sub s s' H) as [Hst _].
  assert (Hc : ~ cached (sub_id sub') (startup (Some (disk s')) now)) by (intros []).
  destruct (Z_lt_dec (sub_created_utc sub') (now - 900)) as [Hs | Hs].
  - exists Stale. split; [|left; reflexivity].
    apply gate_stale; [exact Hc | exact Hs].
  - exists InStore. split; [|right; reflexivity].
    apply gate_stored; [exact Hc | exact Hs |]. rewrite Hid. exact Hst.
Qed.

Lemma replied_then_restarted_witness :
  exists s' h,
    process_submission 1 (calm_world [sample_submission] (sample_playlist [sample_item 5]))
      sample_submission (startup (Some empty_store) 1100) = Done Replied s' /\
    process_submission 1 (calm_world [sample_submission] (sample_playlist [sample_item 5]))
      sample_submission (startup (Some (disk s')) 1200)
    = Done h (with_id "abc" (startup (Some (disk s')) 1200)) /\
    (h = Stale \/ h = InStore).
Proof.
  eexists.
  destruct (replied_then_restarted 1
              (calm_world [sample_submission] (sample_playlist [sample_item 5]))
              sample_submission (startup (Some empty_store) 1100) _
              ltac:(vm_compute; reflexivity) 1%nat
              (calm_world [sample_submission] (sample_playlist [sample_item 5]))
              sample_submission 1200 eq_refl) as (h & Hrun & Hh).
  exists h. split; [vm_compute; reflexivity|]. split; [exact Hrun | exact Hh].
Defined.

(** ** A playlist that has been deleted (lines 127-132) *)

(** X12. When the first request for the playlist raises [SpotifyException],
    the submission is done with: one request, no sleep, no reply, the
    identifier appended to the cache and the store left as it was. *)
Theorem deleted_playlist_is_passed_over :
  forall (fuel : nat) (w : World) (sub : Submission) (playlist_id : string)
         (s : State),
    ~ cached (sub_id sub) s -> ~ stale sub s -> not_stored (sub_id sub) (db s) ->
    extract_playlist_id (sub_host sub) (sub_segments sub)
      = Returned (Identifier playlist_id) ->
    spotify_playlist w playlist_id (calls s) = Raised SpotifyException ->
    exists s' evs,
      process_submission fuel w sub s = Done PlaylistNotFound s' /\
      trace s' = (trace s ++ evs)%list /\
      requests evs = [ReqPlaylist playlist_id] /\
      sleeps evs = [] /\
      submission_ids s' = (submission_ids s ++ [sub_id sub])%list /\
      db s' = db s /\ disk s' = disk s.
Proof.
  intros fuel w sub pid s Hc Hs Hn He Hnf.
  rewrite gate_new by assumption.
  unfold handle_link, bind at 1. rewrite He. cbn [lift ret].
  apply not_found_at_first_attempt. exact Hnf.
Qed.

Lemma deleted_playlist_is_passed_over_witness :
  exists s' evs,
    process_submission 0 not_found_world sample_submission
      (startup (Some empty_store) 1100) = Done PlaylistNotFound s' /\
    trace s' = (trace (startup (Some empty_store) 1100) ++ evs)%list /\
    requests evs = [ReqPlaylist "xyz"] /\
    sleeps evs = [] /\
    submission_ids s' = ["abc"] /\
    db s' = empty_store /\ disk s' = empty_store.
Proof.
  apply (deleted_playlist_is_passed_over 0 not_found_world sample_submission "xyz"
           (startup (Some empty_store) 1100)).
  - intros [].
  - unfold stale. cbn. lia.
  - exists []. split; [reflexivity | intros []].
  - reflexivity.
  - reflexivity.
Defined.

(** ** More on the retry loop (lines 65-88, 127-154, 158-182, 228-252) *)



Lemma never_raises_bind {A B} (c : M A) (k : A -> M B) :
  never_raises c -> (forall a, never_raises (k a)) -> never_raises (bind c k).
Proof.
  intros Hc Hk s. unfold bind. specialize (Hc s).
  destruct (c s) as [a s1 | e s1 |]; [apply Hk | exact Hc | exact I].
Qed.

Lemma never_raises_try {A} (c : M A) : never_raises (try_ c).
Proof. intros s. unfold try_. destruct (c s); exact I. Qed.

Lemma never_raises_retry_loop {A} (call : M A) (what : string) :
  forall fuel sleep_time attempt_count,
    never_raises (retry_loop fuel call what sleep_time attempt_count).
Proof.
  induction fuel as [|fuel IH]; intros st ac; [intros s; exact I|].
  cbn [retry_loop].
  apply never_raises_bind; [intros s; exact I|]. intros _.
  apply never_raises_bind; [intros s; exact I|]. intros _.
  apply never_raises_bind; [apply never_raises_try|]. intros [v | e].
  - intros s. exact I.
  - apply never_raises_bind; [intros s; exact I|]. intros _. apply IH.
Qed.

Lemma never_raises_with_retry {A} (fuel : nat) (call : M A) (failed what : string) :
  never_raises (with_retry fuel call failed what).
Proof.
  unfold with_retry.
  apply never_raises_bind; [apply never_raises_try|]. intros [v | e].
  - intros s. exact I.
  - apply never_raises_bind; [intros s; exact I|]. intros _.
    apply never_raises_retry_loop.
Qed.

Lemma never_raises_fetch_playlist (fuel : nat) (w : World) (playlist_id : string) :
  never_raises (fetch_playlist fuel w playlist_id).
Proof.
  unfold fetch_playlist.
  apply never_raises_bind; [apply never_raises_try|]. intros [v | e].
  - intros s. exact I.
  - destruct e; try (intros s; exact I);
      (apply never_raises_bind; [intros s; exact I|]; intros _;
       apply never_raises_bind; [apply never_raises_retry_loop|]; intros p;
       intros s; exact I).
Qed.

Lemma never_raises_fetch_all_tracks (w : World) (playlist_id : string) :
  forall fuel items total offset,
    never_raises (fetch_all_tracks fuel w playlist_id items total offset).
Proof.
  induction fuel as [|fuel IH]; intros items total offset;
    rewrite fetch_all_tracks_eq;
    destruct (Z.of_nat (length items) <? total); try (intros s; exact I).
  apply never_raises_bind; [apply never_raises_with_retry|]. intros tracks.
  apply never_raises_bind; [intros s; exact I|]. intros _. apply IH.
Qed.

(** X14. Fetching is safe: no exception of a service escapes the wrapper
    around [subreddit.new], the playlist fetch or the page loop, and however
    they end they leave the cache and the store alone and send no reply. *)
Theorem fetches_never_raise_and_keep_the_books :
  forall (fuel : nat) (w : World) (playlist_id : string) (items : list Item)
         (total offset : Z),
    never_raises (with_retry fuel (net_call ReqNew (subreddit_new w))
                    "Failed to fetch new submissions" "fetch") /\
    never_raises (fetch_playlist fuel w playlist_id) /\
    never_raises (fetch_all_tracks fuel w playlist_id items total offset) /\
    quiet (with_retry fuel (net_call ReqNew (subreddit_new w))
             "Failed to fetch new submissions" "fetch") /\
    quiet (fetch_playlist fuel w playlist_id) /\
    quiet (fetch_all_tracks fuel w playlist_id items total offset).
Proof.
  intros fuel w pid items total offset.
  split; [apply never_raises_with_retry|].
  split; [apply never_raises_fetch_playlist|].
  split; [apply never_raises_fetch_all_tracks|].
  split; [apply quiet_with_retry, quiet_net_call; reflexivity|].
  split; [apply quiet_fetch_playlist | apply quiet_fetch_all_tracks].
Qed.

(** ** More on the pages (lines 156-187) *)

Lemma sum_Z_repeat_1 (m : nat) : sum_Z (repeat 1 m) = Z.of_nat m.
Proof.
  induction m as [|m IH]; [reflexivity|].
  cbn [repeat]. change (sum_Z (1 :: repeat 1 m)) with (1 + sum_Z (repeat 1 m)).
  rewrite IH. lia.
Qed.

(** X15. With the first page in hand and the service handing out the rest
    in pages of 100, the loop fetches one page for every further hundred
    items, begun or full, at the offsets 100, 200, ..., sleeps one second
    after each, and ends with all the items in order; a playlist of at most
    100 items causes no fetch at all. *)
Theorem pagination_fetches_every_further_page :
  forall (w : World) (playlist_id : string) (all : list Item)
         (m fuel : nat) (s : State),
    (forall offset n,
       spotify_playlist_tracks w playlist_id offset n = Returned (page all offset)) ->
    (m <= fuel)%nat ->
    (length all <= 100 * (m + 1))%nat ->
    (m = 0 \/ 100 * m < length all)%nat ->
    exists s' evs,
      fetch_all_tracks fuel w playlist_id (page all 0) (Z.of_nat (length all)) 100 s
      = Done all s' /\
      trace s' = (trace s ++ evs)%list /\
      requests evs
      = map (fun i => ReqTracks playlist_id (Z.of_nat (100 * i))) (seq 1 m) /\
      sleeps evs = repeat 1 m /\
      clock s' = clock s + Z.of_nat m /\
      same_books s s'.
Proof.
  intros w pid all m fuel s Hpage Hfuel Hlen Hlast.
  destruct (fetch_all_tracks_pages w pid all Hpage m 1 fuel s)
    as (s' & evs & Hrun & (T & _ & K & B) & Hrq & Hsl).
  - exact Hfuel.
  - lia.
  - destruct Hlast as [-> | H]; [left; reflexivity | right; lia].
  - exists s', evs. split; [exact Hrun|]. split; [exact T|]. split; [exact Hrq|].
    split; [exact Hsl|]. split; [|exact B].
    rewrite K, Hsl, sum_Z_repeat_1. reflexivity.
Qed.

Lemma pagination_fetches_every_further_page_witness :
  exists s' evs,
    fetch_all_tracks 2 (paged_world [sample_submission] items_250) "xyz"
      (page items_250 0) (Z.of_nat (length items_250)) 100
      (startup (Some empty_store) 1100) = Done items_250 s' /\
    trace s' = (trace (startup (Some empty_store) 1100) ++ evs)%list /\
    requests evs = map (fun i => ReqTracks "xyz" (Z.of_nat (100 * i))) (seq 1 2) /\
    sleeps evs = repeat 1 2 /\
    clock s' = clock (startup (Some empty_store) 1100) + Z.of_nat 2 /\
    same_books (startup (Some empty_store) 1100) s'.
Proof.
  apply (pagination_fetches_every_further_page
           (paged_world [sample_submission] items_250) "xyz" items_250 2 2
           (startup (Some empty_store) 1100)).
  - intros offset n. reflexivity.
  - lia.
  - apply Nat.leb_le. vm_compute. reflexivity.
  - right. apply Nat.ltb_lt. vm_compute. reflexivity.
Defined.

Lemma fetch_all_tracks_starved (w : World) (playlist_id : string)
    (items : list Item) (total : Z) :
  (forall offset n, spotify_playlist_tracks w playlist_id offset n = Returned []) ->
  Z.of_nat (length items) < total ->
  forall fuel offset s,
    fetch_all_tracks fuel w playlist_id items total offset s = OutOfFuel.
Proof.
  intros Hempty Hlt. induction fuel as [|fuel IH]; intros offset s;
    rewrite fetch_all_tracks_eq;
    destruct (Z.ltb_spec (Z.of_nat (length items)) total) as [_ | Hge]; try lia.
  - reflexivity.
  - destruct (with_retry_returns (ReqTracks playlist_id offset)
                (spotify_playlist_tracks w playlist_id offset)
                "Failed to fetch playlist tracks" "fetch" [] O (S fuel) s)
      as (s1 & evs & Hrun & _); [intros i Hi; lia | apply Hempty | lia |].
    unfold bind. rewrite Hrun. cbn [sleep]. rewrite app_nil_r. apply IH.
Qed.

(** X16. If the service reports more tracks than it hands out (the pages
    after the first come back empty), the page loop never ends: it asks
    again and again, and the submission is never answered nor recorded. *)
Theorem missing_tracks_never_end :
  forall (w : World) (sub : Submission) (playlist_id : string) (playlist : Playlist),
    (forall offset n, spotify_playlist_tracks w playlist_id offset n = Returned []) ->
    Z.of_nat (length (tracks_items playlist)) < tracks_total playlist ->
    forall fuel s,
      fetch_all_tracks fuel w playlist_id (tracks_items playlist)
        (tracks_total playlist) 100 s = OutOfFuel /\
      summarise_and_reply fuel w sub playlist_id playlist s = OutOfFuel.
Proof.
  intros w sub pid playlist Hempty Hlt fuel s.
  assert (H : fetch_all_tracks fuel w pid (tracks_items playlist)
                (tracks_total playlist) 100 s = OutOfFuel)
    by (apply fetch_all_tracks_starved; assumption).
  split; [exact H|]. unfold summarise_and_reply, bind. rewrite H. reflexivity.
Qed.

Lemma missing_tracks_never_end_witness :
  process_submission 7 short_of_tracks_world sample_submission
    (startup (Some empty_store) 1100) = OutOfFuel.
Proof.
  assert (E : extract_playlist_id (sub_host sample_submission)
                (sub_segments sample_submission) = Returned (Identifier "xyz"))
    by reflexivity.
  unfold process_submission, handle_link. rewrite E.
  unfold fetch_and_reply, fetch_playlist.
  unfold bind, try_, log_info, emit. cbn -[summarise_and_reply].
  apply (missing_tracks_never_end short_of_tracks_world sample_submission "xyz").
  - intros offset n. reflexivity.
  - cbn. lia.
Defined.

(** ** The store over a batch and over the work loop (lines 90-264) *)

Lemma NoDup_snoc {A} (l : list A) (x : A) :
  NoDup l -> ~ In x l -> NoDup (l ++ [x]).
Proof.
  intros Hl Hx. apply (Permutation_NoDup (Permutation_cons_append l x)).
  constructor; assumption.
Qed.

Lemma process_store_step (fuel : nat) (w : World) (sub : Submission)
    (s : State) (h : handled) (s' : State) (rows : Table) :
  process_submission fuel w sub s = Done h s' ->
  store_rows (db s) rows ->
  if is_replied h then
    ~ In (sub_id sub) (map fst rows) /\
    store_rows (db s') (rows ++ [(sub_id sub, clock s' - 1)])%list /\
    disk s' = db s'
  else db s' = db s /\ disk s' = disk s.
Proof.
  intros H Hr.
  destruct (process_submission_outcome fuel w sub s h s' H)
    as [(_ & -> & ->) | (_ & Hok & Hrep)]; [split; reflexivity|].
  destruct h; cbn [outcome_ok is_replied] in *; try contradiction;
    try (destruct Hok as (_ & D & K & _); split; assumption).
  destruct (Hrep eq_refl) as (_ & rows' & Hr' & Hnin).
  destruct Hok as (rows'' & evs & text & Hr'' & _ & D2 & K2 & _).
  unfold store_rows in *. rewrite Hr in Hr', Hr''.
  injection Hr' as <-. injection Hr'' as <-.
  split; [exact Hnin|]. split; [|exact K2].
  rewrite D2. apply table_of_set_table. congruence.
Qed.

Lemma for_each_store (fuel : nat) (w : World) :
  forall (subs : list Submission) (s : State) (hs : list handled) (s' : State)
         (rows : Table),
    for_each subs (process_submission fuel w) s = Done hs s' ->
    store_rows (db s) rows -> NoDup (map fst rows) -> disk s = db s ->
    exists added,
      store_rows (db s') (rows ++ added)%list /\
      map fst added = replied_ids subs hs /\
      NoDup (map fst (rows ++ added)) /\
      disk s' = db s' /\
      length hs = length subs.
Proof.
  induction subs as [|x rest IH]; intros s hs s' rows H Hr Hnd Hd.
  - cbn in H. inversion H; subst. exists [].
    rewrite app_nil_r. repeat split; assumption.
  - cbn [for_each] in H. unfold bind in H.
    destruct (process_submission fuel w x s) as [h s1 | |] eqn:E1; try discriminate.
    destruct (for_each rest (process_submission fuel w) s1) as [bs s2 | |] eqn:E2;
      try discriminate.
    cbn in H. inversion H; subst hs s'. clear H.
    pose proof (process_store_step fuel w x s h s1 rows E1 Hr) as Hstep.
    destruct (is_replied h) eqn:Hh.
    + destruct Hstep as (Hnin & Hr1 & Hd1).
      destruct (IH s1 bs s2 _ E2 Hr1) as (added & Hr2 & Hids & Hnd2 & Hd2 & Hlen).
      * rewrite map_app. apply NoDup_snoc; assumption.
      * exact Hd1.
      * exists ((sub_id x, clock s1 - 1) :: added).
        rewrite <- app_assoc in Hr2, Hnd2. cbn [app] in Hr2, Hnd2.
        split; [exact Hr2|]. split.
        { unfold replied_ids. cbn [combine filter snd]. rewrite Hh.
          cbn [map fst]. f_equal. exact Hids. }
        split; [exact Hnd2|]. split; [exact Hd2|]. cbn [length]. lia.
    + destruct Hstep as (D1 & K1).
      destruct (IH s1 bs s2 rows E2) as (added & Hr2 & Hids & Hnd2 & Hd2 & Hlen).
      * unfold store_rows. rewrite D1. exact Hr.
      * exact Hnd.
      * congruence.
      * exists added. split; [exact Hr2|]. split.
        { unfold replied_ids. cbn [combine filter snd]. rewrite Hh. exact Hids. }
        split; [exact Hnd2|]. split; [exact Hd2|]. cbn [length]. lia.
Qed.

(** X17. Over a batch the store only gains rows, one for each submission
    that was answered, in the order of the batch, and all of it committed.
    If no identifier was in the store twice before, none is afterwards: no
    submission of the batch is answered twice, and none that was in the
    store is answered at all. *)
Theorem batch_answers_each_submission_once :
  forall (fuel : nat) (w : World) (subs : list Submission) (s : State)
         (hs : list handled) (s' : State) (rows : Table),
    for_each subs (process_submission fuel w) s = Done hs s' ->
    store_rows (db s) rows -> NoDup (map fst rows) -> disk s = db s ->
    exists added,
      store_rows (db s') (rows ++ added)%list /\
      disk s' = db s' /\
      map fst added = replied_ids subs hs /\
      NoDup (map fst rows ++ replied_ids subs hs) /\
      length hs = length subs.
Proof.
  intros fuel w subs s hs s' rows H Hr Hnd Hd.
  destruct (for_each_store fuel w subs s hs s' rows H Hr Hnd Hd)
    as (added & Hr' & Hids & Hnd' & Hd' & Hlen).
  exists added. split; [exact Hr'|]. split; [exact Hd'|]. split; [exact Hids|].
  split; [|exact Hlen]. rewrite <- Hids, <- map_app. exact Hnd'.
Qed.

Lemma batch_answers_each_submission_once_witness :
  exists hs s' added,
    for_each [sample_submission; video_submission; sample_submission]
      (process_submission 1
         (calm_world [sample_submission] (sample_playlist [sample_item 5])))
      (startup (Some empty_store) 1100) = Done hs s' /\
    store_rows (db s') ([] ++ added)%list /\
    disk s' = db s' /\
    map fst added
    = replied_ids [sample_submission; video_submission; sample_submission] hs /\
    length hs = 3%nat.
Proof.
  eexists. eexists.
  destruct (batch_answers_each_submission_once 1
              (calm_world [sample_submission] (sample_playlist [sample_item 5]))
              [sample_submission; video_submission; sample_submission]
              (startup (Some empty_store) 1100) _ _ []
              ltac:(vm_compute; reflexivity) eq_refl (NoDup_nil _) eq_refl)
    as (added & Hr & Hd & Hids & _ & Hlen).
  exists added. split; [vm_compute; reflexivity|].
  split; [exact Hr|]. split; [exact Hd|]. split; [exact Hids | exact Hlen].
Defined.

Lemma poll_store (fuel : nat) (w : World) (s : State) (hs : list handled)
    (s' : State) (rows : Table) :
  poll fuel w s = Done hs s' ->
  store_rows (db s) rows -> NoDup (map fst rows) -> disk s = db s ->
  exists added,
    store_rows (db s') (rows ++ added)%list /\
    length added = length (filter is_replied hs) /\
    NoDup (map fst (rows ++ added)) /\
    disk s' = db s'.
Proof.
  intros H Hr Hnd Hd. unfold poll, bind in H.
  pose proof (quiet_with_retry fuel (net_call ReqNew (subreddit_new w))
                "Failed to fetch new submissions" "fetch"
                (quiet_net_call ReqNew (subreddit_new w) eq_refl) s) as Hq.
  destruct (with_retry fuel (net_call ReqNew (subreddit_new w)) _ _ s)
    as [subs s1 | |]; try discriminate.
  destruct Hq as ((_ & D1 & K1) & _).
  destruct (for_each_store fuel w subs s1 hs s' rows H)
    as (added & Hr' & Hids & Hnd' & Hd' & Hlen).
  - unfold store_rows. rewrite D1. exact Hr.
  - exact Hnd.
  - congruence.
  - exists added. split; [exact Hr'|]. split; [|split; assumption].
    transitivity (length (map fst added)); [symmetry; apply length_map|].
    rewrite Hids. unfold replied_ids.
    rewrite length_map. clear - Hlen. revert hs Hlen.
    induction subs as [|x subs IH]; intros [|h hs] Hlen; try discriminate;
      [reflexivity|].
    cbn [combine filter snd]. cbn [length] in Hlen.
    destruct (is_replied h); cbn [length]; rewrite IH by lia; reflexivity.
Qed.

(** X18. Over any number of rounds of the work loop the rows of the store
    are never changed or removed: the store gains exactly one row for each
    reply, everything is committed at the end of each round, and a store
    that held no identifier twice still holds none twice. *)
Theorem work_loop_store_only_grows :
  forall (rounds fuel : nat) (w : World) (s : State) (hs : list handled)
         (s' : State) (rows : Table),
    work_loop rounds fuel w s = Done hs s' ->
    store_rows (db s) rows -> NoDup (map fst rows) -> disk s = db s ->
    exists added,
      store_rows (db s') (rows ++ added)%list /\
      length added = length (filter is_replied hs) /\
      NoDup (map fst (rows ++ added)) /\
      disk s' = db s'.
Proof.
  induction rounds as [|rounds IH]; intros fuel w s hs s' rows H Hr Hnd Hd.
  - cbn in H. inversion H; subst. exists [].
    rewrite app_nil_r. repeat split; assumption.
  - cbn [work_loop] in H. unfold bind in H.
    destruct (poll fuel w s) as [hs1 s1 | |] eqn:E1; try discriminate.
    destruct (work_loop rounds fuel w s1) as [hs2 s2 | |] eqn:E2; try discriminate.
    cbn in H. inversion H; subst hs s'. clear H.
    destruct (poll_store fuel w s hs1 s1 rows E1 Hr Hnd Hd)
      as (a1 & Hr1 & Hl1 & Hnd1 & Hd1).
    destruct (IH fuel w s1 hs2 s2 _ E2 Hr1 Hnd1 Hd1)
      as (a2 & Hr2 & Hl2 & Hnd2 & Hd2).
    exists (a1 ++ a2)%list. rewrite app_assoc.
    split; [exact Hr2|]. split; [|split; assumption].
    rewrite filter_app, !length_app. lia.
Qed.

Lemma work_loop_store_only_grows_witness :
  exists hs s' added,
    main 2 1 (calm_world [sample_submission] (sample_playlist [sample_item 5]))
      (Some empty_store) 1100 = Done hs s' /\
    store_rows (db s') ([] ++ added)%list /\
    length added = length (filter is_replied hs) /\
    disk s' = db s'.
Proof.
  eexists. eexists.
  destruct (work_loop_store_only_grows 2 1
              (calm_world [sample_submission] (sample_playlist [sample_item 5]))
              (startup (Some empty_store) 1100) _ _ []
              ltac:(vm_compute; reflexivity) eq_refl (NoDup_nil _) eq_refl)
    as (added & Hr & Hl & _ & Hd).
  exists added. split; [vm_compute; reflexivity|]. split; [exact Hr|].
  split; assumption.
Defined.

(** ** The cache over the work loop (lines 90-264) *)

Lemma process_cache_step (fuel : nat) (w : World) (sub : Submission)
    (s : State) (h : handled) (s' : State) :
  process_submission fuel w sub s = Done h s' ->
  (length (submission_ids s') <= length (submission_ids s) + 1)%nat.
Proof.
  intros H.
  destruct (process_submission_outcome fuel w sub s h s' H)
    as [(_ & _ & ->) | (_ & Hok & _)]; [lia|].
  destruct h; cbn [outcome_ok] in Hok; try contradiction;
    try (destruct Hok as (-> & _); rewrite length_app; cbn [length]; lia).
  destruct Hok as (rows & evs & text & _ & -> & _).
  rewrite evict_skipn, length_skipn, length_app. cbn [length]. lia.
Qed.

Lemma for_each_cache (fuel : nat) (w : World) :
  forall (subs : list Submission) (s : State) (hs : list handled) (s' : State),
    for_each subs (process_submission fuel w) s = Done hs s' ->
    (length (submission_ids s') <= length (submission_ids s) + length hs)%nat.
Proof.
  induction subs as [|x rest IH]; intros s hs s' H.
  - cbn in H. inversion H; subst. lia.
  - cbn [for_each] in H. unfold bind in H.
    destruct (process_submission fuel w x s) as [h s1 | |] eqn:E1; try discriminate.
    destruct (for_each rest (process_submission fuel w) s1) as [bs s2 | |] eqn:E2;
      try discriminate.
    cbn in H. inversion H; subst hs s'.
    apply process_cache_step in E1. apply IH in E2. cbn [length]. lia.
Qed.

(** X19. The cache grows by at most one entry for each submission the work
    loop looks at, replies or not; fetching the listing adds nothing. *)
Theorem cache_grows_by_at_most_one_per_submission :
  forall (rounds fuel : nat) (w : World) (s : State) (hs : list handled)
         (s' : State),
    work_loop rounds fuel w s = Done hs s' ->
    (length (submission_ids s') <= length (submission_ids s) + length hs)%nat.
Proof.
  induction rounds as [|rounds IH]; intros fuel w s hs s' H.
  - cbn in H. inversion H; subst. lia.
  - cbn [work_loop] in H. unfold bind in H.
    destruct (poll fuel w s) as [hs1 s1 | |] eqn:E1; try discriminate.
    destruct (work_loop rounds fuel w s1) as [hs2 s2 | |] eqn:E2; try discriminate.
    cbn in H. inversion H; subst hs s'. clear H.
    apply IH in E2. rewrite length_app.
    enough (length (submission_ids s1) <= length (submission_ids s) + length hs1)%nat
      by lia.
    clear E2. unfold poll, bind in E1.
    pose proof (quiet_with_retry fuel (net_call ReqNew (subreddit_new w))
                  "Failed to fetch new submissions" "fetch"
                  (quiet_net_call ReqNew (subreddit_new w) eq_refl) s) as Hq.
    destruct (with_retry fuel (net_call ReqNew (subreddit_new w)) _ _ s)
      as [subs s0 | |]; try discriminate.
    destruct Hq as ((I0 & _) & _).
    apply for_each_cache in E1. rewrite I0 in E1. exact E1.
Qed.

Lemma cache_grows_by_at_most_one_per_submission_witness :
  exists hs s',
    main 2 0 busy_world (Some empty_store) 1100 = Done hs s' /\
    (length (submission_ids s') <= 0 + length hs)%nat.
Proof.
  eexists. eexists. split; [vm_compute; reflexivity|].
  apply (cache_grows_by_at_most_one_per_submission 2 0 busy_world
           (startup (Some empty_store) 1100)).
  vm_compute. reflexivity.
Defined.

(** ** The whole body, when nothing fails (lines 90-264) *)

(** X20. A new submission with a playlist link, a playlist that comes with
    all its tracks and a reply that goes through at once: the loop body makes
    exactly two calls, the playlist fetch and one reply carrying the text
    built from the playlist's items, sleeps one second, appends the
    identifier to the cache (evicting down to 125), and adds and commits one
    row with the identifier and the time of the insertion. *)
Theorem new_playlist_link_is_answered_once :
  forall (fuel : nat) (w : World) (sub : Submission) (playlist_id : string)
         (playlist : Playlist) (text : string) (rows : Table) (s : State),
    ~ cached (sub_id sub) s -> ~ stale sub s ->
    store_rows (db s) rows -> ~ In (sub_id sub) (map fst rows) ->
    extract_playlist_id (sub_host sub) (sub_segments sub)
      = Returned (Identifier playlist_id) ->
    spotify_playlist w playlist_id (calls s) = Returned playlist ->
    tracks_total playlist <= Z.of_nat (length (tracks_items playlist)) ->
    build_response playlist (tracks_items playlist) (sub_url sub) = Returned text ->
    submission_reply w (sub_id sub) text (S (calls s)) = Returned tt ->
    exists s' evs,
      process_submission fuel w sub s = Done Replied s' /\
      trace s' = (trace s ++ evs)%list /\
      requests evs = [ReqPlaylist playlist_id; ReqReply (sub_id sub) text] /\
      sleeps evs = [1] /\
      submission_ids s' = evict (submission_ids s ++ [sub_id sub]) /\
      store_rows (db s') (rows ++ [(sub_id sub, clock s)])%list /\
      disk s' = db s' /\
      clock s' = clock s + 1 /\
      calls s' = S (S (calls s)).
Proof.
  intros fuel w sub pid playlist text rows s Hc Hs Hr Hnin He Hpl Htot Hb Hrep.
  rewrite gate_new; [|exact Hc|exact Hs|exists rows; split; assumption].
  unfold handle_link. unfold bind at 1. rewrite He. cbn [lift ret].
  unfold fetch_and_reply, fetch_playlist. unfold bind at 1 2 3.
  unfold log_info, try_, net_call, emit. cbn [calls]. rewrite Hpl. cbn [ret].
  unfold summarise_and_reply. unfold bind at 1. rewrite fetch_all_tracks_eq.
  destruct (Z.ltb_spec (Z.of_nat (length (tracks_items playlist)))
              (tracks_total playlist)) as [Hlt | _]; [lia|].
  cbn [ret]. unfold bind at 1. rewrite Hb. cbn [lift ret].
  unfold bind at 1. unfold with_retry, bind at 1. unfold try_, net_call.
  cbn [calls]. rewrite Hrep. cbn [ret].
  match goal with
  | |- exists s' evs, record_reply sub ?s2 = _ /\ _ =>
      rewrite (record_reply_done sub s2 rows Hr)
  end.
  eexists. eexists. split; [reflexivity|]. cbn.
  split; [rewrite <- !app_assoc; reflexivity|].
  cbn. split; [reflexivity|]. split; [reflexivity|]. split; [reflexivity|].
  split; [|split; [reflexivity|split; reflexivity]].
  unfold store_rows in *. apply table_of_set_table. congruence.
Qed.

Lemma new_playlist_link_is_answered_once_witness :
  exists text s' evs,
    build_response (sample_playlist [sample_item 5]) [sample_item 5]
      (sub_url sample_submission) = Returned text /\
    process_submission 0
      (calm_world [sample_submission] (sample_playlist [sample_item 5]))
      sample_submission (startup (Some empty_store) 1100) = Done Replied s' /\
    requests evs = [ReqPlaylist "xyz"; ReqReply "abc" text] /\
    store_rows (db s') [("abc", 1100)] /\
    clock s' = 1101.
Proof.
  assert (Hb : exists text,
             build_response (sample_playlist [sample_item 5]) [sample_item 5]
               (sub_url sample_submission) = Returned text)
    by (eexists; vm_compute; reflexivity).
  destruct Hb as [text Hb]. exists text.
  destruct (new_playlist_link_is_answered_once 0
              (calm_world [sample_submission] (sample_playlist [sample_item 5]))
              sample_submission "xyz" (sample_playlist [sample_item 5]) text []
              (startup (Some empty_store) 1100))
    as (s' & evs & Hrun & _ & Hrq & _ & _ & Hst & _ & Hk & _).
  - intros [].
  - unfold stale. cbn. lia.
  - reflexivity.
  - intros [].
  - reflexivity.
  - reflexivity.
  - cbn. lia.
  - exact Hb.
  - reflexivity.
  - exists s', evs. split; [exact Hb|]. split; [exact Hrun|].
    split; [exact Hrq|]. split; [exact Hst | exact Hk].
Defined.
